(** * The chat-provider services of cyber-duel-academy

    A shallow embedding of the classes [OpenAIService] and [GeminiService]
    (the module that [src/hooks/useGemini.ts] imports as [@/services/openai])
    over the types of [@/types/api], followed by the properties of the
    credential store, of the message translation and of
    [createChatCompletion].

    JavaScript values are embedded as the inductive type [value]; code that
    can throw returns a [Completion]; code that reads or writes a service
    instance, [localStorage], the toast queue, the console or the network
    runs in the state-and-exception monad [JS]. An [await] is a sequence
    point and nothing more: one call is followed from its start to its
    return. The browser's own operations ([localStorage], [toast],
    [console.error]) are taken to succeed; [fetch] and [response.json()] may
    reject, and the parsed body may be any JSON value. *)

From Stdlib Require Import PrimFloat.
From stdpp Require Import base strings list gmap.

Set Default Proof Using "Type".
Set Warnings "-inexact-float".

Open Scope string_scope.
Open Scope list_scope.

(** ** JavaScript values *)

(** A number is an IEEE 754 binary64; a string is the sequence of its code
    units, one character of the embedding for each. Objects keep their own
    properties in insertion order. *)
#[warnings="-register-all"]
Inductive value : Type :=
| VUndefined
| VNull
| VBool (b : bool)
| VNumber (n : float)
| VString (s : string)
| VArray (elems : list value)
| VObject (props : list (string * value)).

(** An [Error] object: the constructor that made it and its [message]. *)
Record JsError : Type := { error_name : string; message : string }.

(** The outcome of evaluating an expression: a value or a thrown error. *)
Inductive Completion (A : Type) : Type :=
| Normal (a : A)
| Abrupt (e : JsError).
Arguments Normal {A} a.
Arguments Abrupt {A} e.

#[global] Instance Completion_ret : MRet Completion := fun A a => Normal a.
#[global] Instance Completion_bind : MBind Completion := fun A B f c =>
  match c with
  | Normal a => f a
  | Abrupt e => Abrupt e
  end.

Definition Error (msg : string) : JsError :=
  {| error_name := "Error"; message := msg |}.
Definition TypeError (msg : string) : JsError :=
  {| error_name := "TypeError"; message := msg |}.

(** ToBoolean. *)
Definition truthy (v : value) : bool :=
  match v with
  | VUndefined | VNull => false
  | VBool b => b
  | VNumber n => negb (PrimFloat.eqb n 0 || PrimFloat.is_nan n)
  | VString s => negb (String.eqb s "")
  | VArray _ | VObject _ => true
  end.

(** ToBoolean of a [string | null]. *)
Definition truthy_string (o : option string) : bool :=
  match o with
  | Some s => negb (String.eqb s "")
  | None => false
  end.

(** Own property of an object created by a literal or by [JSON.parse]. *)
Fixpoint own_property (name : string) (props : list (string * value)) : option value :=
  match props with
  | [] => None
  | (k, v) :: rest => if String.eqb k name then Some v else own_property name rest
  end.

(** The property names the two services read with the dot syntax. None of
    them is inherited from [Object.prototype], [Array.prototype],
    [String.prototype], [Number.prototype] or [Boolean.prototype]. *)
Inductive PropName : Type :=
| p_choices | p_message | p_candidates | p_content | p_parts | p_text | p_error.

Definition prop_string (p : PropName) : string :=
  match p with
  | p_choices => "choices"
  | p_message => "message"
  | p_candidates => "candidates"
  | p_content => "content"
  | p_parts => "parts"
  | p_text => "text"
  | p_error => "error"
  end.

(** The wording of V8. *)
Definition cannot_read (v : value) (name : string) : JsError :=
  TypeError ("Cannot read properties of "
             +:+ (match v with VNull => "null" | _ => "undefined" end)
             +:+ " (reading '" +:+ name +:+ "')").

(** [v.p] *)
Definition get (v : value) (p : PropName) : Completion value :=
  match v with
  | VUndefined | VNull => Abrupt (cannot_read v (prop_string p))
  | VObject props => Normal (default VUndefined (own_property (prop_string p) props))
  | VBool _ | VNumber _ | VString _ | VArray _ => Normal VUndefined
  end.

(** [v[0]] *)
Definition index0 (v : value) : Completion value :=
  match v with
  | VUndefined | VNull => Abrupt (cannot_read v "0")
  | VArray elems => Normal (default VUndefined (head elems))
  | VString s =>
      Normal (match s with
              | String c _ => VString (String c EmptyString)
              | EmptyString => VUndefined
              end)
  | VObject props => Normal (default VUndefined (own_property "0" props))
  | VBool _ | VNumber _ => Normal VUndefined
  end.

(** [v.length === 0] *)
Definition length_is_zero (v : value) : Completion bool :=
  match v with
  | VUndefined | VNull => Abrupt (cannot_read v "length")
  | VArray elems => Normal (bool_decide (elems = []))
  | VString s => Normal (String.eqb s "")
  | VObject props =>
      Normal (match own_property "length" props with
              | Some (VNumber n) => PrimFloat.eqb n 0
              | _ => false
              end)
  | VBool _ | VNumber _ => Normal false
  end.

Definition is_own (name : string) (props : list (string * value)) : bool :=
  match own_property name props with Some _ => true | None => false end.

Section ToString.
(** Number::toString, the shortest decimal text that reads back as the
    number, is the engine's. *)
Variable Number_toString : float -> string.

(** ToString of a value built by [JSON.parse] (no callable property, no
    symbol): an object with an own [toString] has no primitive value, any
    other one prints as [[object Object]]; an array joins its elements. *)
Fixpoint ToString (v : value) : Completion string :=
  match v with
  | VUndefined => Normal "undefined"
  | VNull => Normal "null"
  | VBool b => Normal (if b then "true" else "false")
  | VNumber n => Normal (Number_toString n)
  | VString s => Normal s
  | VArray elems =>
      (fix join (l : list value) : Completion string :=
         match l with
         | [] => Normal ""
         | x :: rest =>
             match (match x with
                    | VUndefined | VNull => Normal ""
                    | _ => ToString x
                    end) with
             | Abrupt e => Abrupt e
             | Normal sx =>
                 match rest with
                 | [] => Normal sx
                 | _ :: _ =>
                     match join rest with
                     | Abrupt e => Abrupt e
                     | Normal sr => Normal (sx +:+ "," +:+ sr)
                     end
                 end
             end
         end) elems
  | VObject props =>
      if is_own "toString" props
      then Abrupt (TypeError "Cannot convert object to primitive value")
      else Normal "[object Object]"
  end.
End ToString.

(** ** The world the services run in *)

Record Toast : Type :=
  { title : string; description : string; variant : option string }.

(** The argument of [fetch]. [body] is the object handed to
    [JSON.stringify]. *)
Record Request : Type :=
  { url : string;
    method : string;
    headers : list (string * string);
    body : value }.

(** What the code reads of a [Response]: [ok] and the outcome of awaiting
    [json()]. *)
Record Response : Type := { ok : bool; json : Completion value }.

(** The two singletons the module exports, [openaiService] and
    [geminiService]. *)
Inductive Service : Type := openaiService | geminiService.

(** Each instance has its private field [apiKey]; the rest is the browser,
    one for both: [localStorage], the toasts shown, the requests sent and
    the lines of [console.error]. *)
Record State : Type :=
  { openai_apiKey : option string;
    gemini_apiKey : option string;
    localStorage : gmap string string;
    toasts : list Toast;
    requests : list Request;
    console : list (string * JsError) }.

Definition JS (A : Type) : Type := State -> Completion A * State.

#[global] Instance JS_ret : MRet JS := fun A a s => (Normal a, s).
#[global] Instance JS_bind : MBind JS := fun A B f m s =>
  match m s with
  | (Normal a, s') => f a s'
  | (Abrupt e, s') => (Abrupt e, s')
  end.

Definition throw {A : Type} (e : JsError) : JS A := fun s => (Abrupt e, s).

Definition lift {A : Type} (c : Completion A) : JS A := fun s => (c, s).

(** [try { body } catch (error) { handler }] *)
Definition try_catch {A : Type} (body : JS A) (handler : JsError -> JS A) : JS A :=
  fun s =>
    match body s with
    | (Normal a, s') => (Normal a, s')
    | (Abrupt e, s') => handler e s'
    end.

(** [this.apiKey] *)
Definition apiKey (this : Service) (s : State) : option string :=
  match this with
  | openaiService => openai_apiKey s
  | geminiService => gemini_apiKey s
  end.

(** Assignments to one component of the world. *)
Definition with_apiKey (this : Service) (k : option string) (s : State) : State :=
  match this with
  | openaiService =>
      {| openai_apiKey := k; gemini_apiKey := gemini_apiKey s;
         localStorage := localStorage s; toasts := toasts s;
         requests := requests s; console := console s |}
  | geminiService =>
      {| openai_apiKey := openai_apiKey s; gemini_apiKey := k;
         localStorage := localStorage s; toasts := toasts s;
         requests := requests s; console := console s |}
  end.

Definition with_localStorage (m : gmap string string) (s : State) : State :=
  {| openai_apiKey := openai_apiKey s; gemini_apiKey := gemini_apiKey s;
     localStorage := m; toasts := toasts s;
     requests := requests s; console := console s |}.

Definition with_toasts (ts : list Toast) (s : State) : State :=
  {| openai_apiKey := openai_apiKey s; gemini_apiKey := gemini_apiKey s;
     localStorage := localStorage s; toasts := ts;
     requests := requests s; console := console s |}.

Definition with_requests (rs : list Request) (s : State) : State :=
  {| openai_apiKey := openai_apiKey s; gemini_apiKey := gemini_apiKey s;
     localStorage := localStorage s; toasts := toasts s;
     requests := rs; console := console s |}.

Definition with_console (c : list (string * JsError)) (s : State) : State :=
  {| openai_apiKey := openai_apiKey s; gemini_apiKey := gemini_apiKey s;
     localStorage := localStorage s; toasts := toasts s;
     requests := requests s; console := c |}.

Definition read_apiKey (this : Service) : JS (option string) := fun s =>
  (Normal (apiKey this s), s).

Definition write_apiKey (this : Service) (k : option string) : JS unit := fun s =>
  (Normal tt, with_apiKey this k s).

Definition localStorage_getItem (key : string) : JS (option string) := fun s =>
  (Normal (localStorage s !! key), s).

Definition localStorage_setItem (key val : string) : JS unit := fun s =>
  (Normal tt, with_localStorage (<[key := val]> (localStorage s)) s).

Definition localStorage_removeItem (key : string) : JS unit := fun s =>
  (Normal tt, with_localStorage (delete key (localStorage s)) s).

Definition toast (t : Toast) : JS unit := fun s =>
  (Normal tt, with_toasts (toasts s ++ [t]) s).

Definition console_error (label : string) (e : JsError) : JS unit := fun s =>
  (Normal tt, with_console (console s ++ [(label, e)]) s).

(** [await fetch(...)]: the request leaves, and the network answers with a
    response or rejects. *)
Definition fetch (network : Request -> Completion Response) (rq : Request) : JS Response :=
  fun s => (network rq, with_requests (requests s ++ [rq]) s).

(** A page load constructs both singletons anew ([apiKey = null]) over the
    [localStorage] of the origin. *)
Definition reload (s : State) : State :=
  with_apiKey openaiService None (with_apiKey geminiService None s).

(** ** The credential store

    [setApiKey], [getApiKey] and [clearApiKey] are written twice in the
    source, once per class, and differ only in the [localStorage] key. *)

Module CredentialStore.
Section Instance.
Variable this : Service.
Variable storageKey : string.

Definition setApiKey (key : string) : JS bool :=
  write_apiKey this (Some key) ;;
  localStorage_setItem storageKey key ;;
  mret true.

Definition getApiKey : JS (option string) :=
  cached ← read_apiKey this ;
  (if negb (truthy_string cached) then
     storedKey ← localStorage_getItem storageKey ;
     if truthy_string storedKey then write_apiKey this storedKey else mret tt
   else mret tt) ;;
  read_apiKey this.

Definition clearApiKey : JS unit :=
  write_apiKey this None ;;
  localStorage_removeItem storageKey.
End Instance.
End CredentialStore.

(** ** Messages and options *)

Inductive Role : Type := system | user | assistant.

#[global] Instance Role_eq_dec : EqDecision Role.
Proof. solve_decision. Defined.

Record ChatMessage : Type := { role : Role; content : string }.

Inductive GeminiRole : Type := gemini_user | gemini_model.

#[global] Instance GeminiRole_eq_dec : EqDecision GeminiRole.
Proof. solve_decision. Defined.

Record Part : Type := { text : string }.

Record GeminiMessage : Type := { gemini_role : GeminiRole; parts : list Part }.

(** The second argument of [createChatCompletion]; an unset field is [None]. *)
Record Options : Type :=
  { model : option string;
    temperature : option float;
    max_tokens : option float }.

Definition role_string (r : Role) : string :=
  match r with
  | system => "system"
  | user => "user"
  | assistant => "assistant"
  end.

Definition gemini_role_string (r : GeminiRole) : string :=
  match r with
  | gemini_user => "user"
  | gemini_model => "model"
  end.

(** The objects as [JSON.stringify] meets them. *)
Definition message_value (m : ChatMessage) : value :=
  VObject [("role", VString (role_string (role m))); ("content", VString (content m))].

Definition part_value (p : Part) : value :=
  VObject [("text", VString (text p))].

Definition gemini_value (g : GeminiMessage) : value :=
  VObject [("role", VString (gemini_role_string (gemini_role g)));
           ("parts", VArray (part_value <$> parts g))].

Definition number_value (o : option float) : value :=
  match o with
  | Some n => VNumber n
  | None => VUndefined
  end.

(** [a || b] on a string that may be unset. *)
Definition or_string (a : option string) (b : string) : string :=
  match a with
  | Some s => if String.eqb s "" then b else s
  | None => b
  end.

(** [a ?? b] *)
Definition nullish {A : Type} (a : option A) (b : A) : A :=
  match a with
  | Some x => x
  | None => b
  end.

(** A [string | null] inside a template literal. *)
Definition template (o : option string) : string :=
  match o with
  | Some s => s
  | None => "null"
  end.

Definition newline : string := String (Ascii.ascii_of_nat 10) EmptyString.

(** [error.error?.message] *)
Definition error_message (error : value) : Completion value :=
  inner ← get error p_error ;
  match inner with
  | VUndefined | VNull => Normal VUndefined
  | _ => get inner p_message
  end.

(** [new Error(given || fallback)] *)
Definition new_Error (Number_toString : float -> string)
    (given : value) (fallback : string) : Completion JsError :=
  msg ← ToString Number_toString (if truthy given then given else VString fallback) ;
  Normal (Error msg).

(** [error.message || "Something went wrong"] *)
Definition failure_description (error : JsError) : string :=
  if String.eqb (message error) "" then "Something went wrong" else message error.

(** ** OpenAIService *)

Module OpenAIService.
Definition storageKey : string := "openai_api_key".
Definition baseUrl : string := "https://api.openai.com/v1".
Definition defaultModel : string := "gpt-4o-mini".

Definition setApiKey : string -> JS bool :=
  CredentialStore.setApiKey openaiService storageKey.
Definition getApiKey : JS (option string) :=
  CredentialStore.getApiKey openaiService storageKey.
Definition clearApiKey : JS unit :=
  CredentialStore.clearApiKey openaiService storageKey.

Definition missingToast : Toast :=
  {| title := "API Key Missing";
     description := "Please set your OpenAI API key in the settings";
     variant := Some "destructive" |}.

Definition failedToast (error : JsError) : Toast :=
  {| title := "AI Request Failed";
     description := failure_description error;
     variant := Some "destructive" |}.

Definition request (apiKey : option string) (messages : list ChatMessage)
    (options : Options) : Request :=
  {| url := baseUrl +:+ "/chat/completions";
     method := "POST";
     headers := [("Content-Type", "application/json");
                 ("Authorization", "Bearer " +:+ template apiKey)];
     body := VObject
               [("model", VString (or_string (model options) defaultModel));
                ("messages", VArray (message_value <$> messages));
                ("temperature", VNumber (nullish (temperature options) 0.7%float));
                ("max_tokens", number_value (max_tokens options))] |}.

(** [data.choices[0].message] *)
Definition first_choice_message (data : value) : Completion value :=
  choices ← get data p_choices ;
  choice ← index0 choices ;
  get choice p_message.

Section Run.
Variable Number_toString : float -> string.
Variable network : Request -> Completion Response.

Definition createChatCompletion (messages : list ChatMessage) (options : Options)
    : JS value :=
  apiKey ← getApiKey ;
  if negb (truthy_string apiKey) then
    toast missingToast ;;
    mret VNull
  else
    try_catch
      (response ← fetch network (request apiKey messages options) ;
       if negb (ok response) then
         error ← lift (json response) ;
         given ← lift (error_message error) ;
         thrown ← lift (new_Error Number_toString given
                          "Failed to connect to OpenAI API") ;
         throw thrown
       else
         data ← lift (json response) ;
         lift (first_choice_message data))
      (fun error =>
         toast (failedToast error) ;;
         console_error "OpenAI API Error:" error ;;
         mret VNull).
End Run.
End OpenAIService.

(** ** GeminiService *)

Module GeminiService.
Definition storageKey : string := "gemini_api_key".
Definition baseUrl : string := "https://generativelanguage.googleapis.com/v1beta".
Definition defaultModel : string := "gemini-pro".

Definition setApiKey : string -> JS bool :=
  CredentialStore.setApiKey geminiService storageKey.
Definition getApiKey : JS (option string) :=
  CredentialStore.getApiKey geminiService storageKey.
Definition clearApiKey : JS unit :=
  CredentialStore.clearApiKey geminiService storageKey.

Definition convertToGeminiMessages (messages : list ChatMessage) : list GeminiMessage :=
  (fun msg =>
     {| gemini_role := if decide (role msg = assistant) then gemini_model else gemini_user;
        parts := [ {| text := content msg |} ] |})
  <$> filter (fun msg => role msg <> system) messages.

(** The statement under the comment "include the system message as a
    prefix to the first user message". *)
Definition prefixSystemMessage (systemMessage : option ChatMessage)
    (geminiMessages : list GeminiMessage) : Completion (list GeminiMessage) :=
  match systemMessage, geminiMessages with
  | Some sys, first :: rest =>
      if decide (gemini_role first = gemini_user) then
        match parts first with
        | part :: others =>
            Normal ({| gemini_role := gemini_role first;
                       parts := {| text := content sys +:+ newline +:+ newline +:+ text part |}
                                :: others |} :: rest)
        | [] => Abrupt (cannot_read VUndefined "text")
        end
      else Normal geminiMessages
  | _, _ => Normal geminiMessages
  end.

(** The [contents] of the request: the first lines of the [try] block. *)
Definition contents (messages : list ChatMessage) : Completion (list GeminiMessage) :=
  let systemMessage := List.find (fun msg => bool_decide (role msg = system)) messages in
  let geminiMessages := convertToGeminiMessages messages in
  prefixSystemMessage systemMessage geminiMessages.

Definition missingToast : Toast :=
  {| title := "API Key Missing";
     description := "Please set your Gemini API key in the settings";
     variant := Some "destructive" |}.

Definition failedToast (error : JsError) : Toast :=
  {| title := "AI Request Failed";
     description := failure_description error;
     variant := Some "destructive" |}.

Definition request (apiKey : option string) (geminiMessages : list GeminiMessage)
    (options : Options) : Request :=
  let model := or_string (model options) defaultModel in
  {| url := baseUrl +:+ "/models/" +:+ model +:+ ":generateContent?key=" +:+ template apiKey;
     method := "POST";
     headers := [("Content-Type", "application/json")];
     body := VObject
               [("contents", VArray (gemini_value <$> geminiMessages));
                ("generationConfig",
                 VObject
                   [("temperature", VNumber (nullish (temperature options) 0.7%float));
                    ("maxOutputTokens", number_value (max_tokens options))])] |}.

Definition EmptyResponse : JsError := Error "No response generated from Gemini API".

(** [!data.candidates || data.candidates.length === 0] *)
Definition no_candidates (data : value) : Completion bool :=
  candidates ← get data p_candidates ;
  if negb (truthy candidates) then Normal true else length_is_zero candidates.

(** [data.candidates[0].content.parts[0].text] *)
Definition first_text (data : value) : Completion value :=
  candidates ← get data p_candidates ;
  candidate ← index0 candidates ;
  cont ← get candidate p_content ;
  prts ← get cont p_parts ;
  part ← index0 prts ;
  get part p_text.

Section Run.
Variable Number_toString : float -> string.
Variable network : Request -> Completion Response.

Definition createChatCompletion (messages : list ChatMessage) (options : Options)
    : JS value :=
  apiKey ← getApiKey ;
  if negb (truthy_string apiKey) then
    toast missingToast ;;
    mret VNull
  else
    try_catch
      (geminiMessages ← lift (contents messages) ;
       response ← fetch network (request apiKey geminiMessages options) ;
       if negb (ok response) then
         error ← lift (json response) ;
         given ← lift (error_message error) ;
         thrown ← lift (new_Error Number_toString given
                          "Failed to connect to Gemini API") ;
         throw thrown
       else
         data ← lift (json response) ;
         absent ← lift (no_candidates data) ;
         if (absent : bool) then throw EmptyResponse
         else
           txt ← lift (first_text data) ;
           mret (VObject [("role", VString "assistant"); ("content", txt)]))
      (fun error =>
         toast (failedToast error) ;;
         console_error "Gemini API Error:" error ;;
         mret VNull).
End Run.
End GeminiService.

(** ** Vocabulary of the statements *)

(** What the [try] block of [OpenAIService.createChatCompletion] evaluates
    to once [fetch] has settled with [reply]. *)
Definition openai_outcome (Number_toString : float -> string)
    (reply : Completion Response) : Completion value :=
  response ← reply ;
  if negb (ok response) then
    error ← json response ;
    given ← error_message error ;
    thrown ← new_Error Number_toString given "Failed to connect to OpenAI API" ;
    Abrupt thrown
  else
    data ← json response ;
    OpenAIService.first_choice_message data.

(** The same for [GeminiService.createChatCompletion]. *)
Definition gemini_outcome (Number_toString : float -> string)
    (reply : Completion Response) : Completion value :=
  response ← reply ;
  if negb (ok response) then
    error ← json response ;
    given ← error_message error ;
    thrown ← new_Error Number_toString given "Failed to connect to Gemini API" ;
    Abrupt thrown
  else
    data ← json response ;
    absent ← GeminiService.no_candidates data ;
    if (absent : bool) then Abrupt GeminiService.EmptyResponse
    else
      txt ← GeminiService.first_text data ;
      Normal (VObject [("role", VString "assistant"); ("content", txt)]).

(** The world after a failed request: the toast, then the console line. *)
Definition reported (failedToast : JsError -> Toast) (label : string)
    (error : JsError) (s : State) : State :=
  with_console (console s ++ [(label, error)])
    (with_toasts (toasts s ++ [failedToast error]) s).

(** The world after [fetch] was called with [rq]. *)
Definition sent (rq : Request) (s : State) : State :=
  with_requests (requests s ++ [rq]) s.

(** A uniform message whose role is "assistant". *)
Definition is_assistant_message (v : value) : bool :=
  match v with
  | VObject props =>
      match own_property "role" props, own_property "content" props with
      | Some (VString r), Some (VString _) => String.eqb r "assistant"
      | _, _ => false
      end
  | _ => false
  end.

(** A property of an object literal such as the request body. *)
Definition field (name : string) (v : value) : option value :=
  match v with
  | VObject props => own_property name props
  | _ => None
  end.

(** A network that answers every request with [reply]. *)
Definition answering (reply : Completion Response) : Request -> Completion Response :=
  fun _ => reply.

(** Stands for the engine's Number::toString in the instances below, none
    of which converts a number to a string. *)
Definition sample_Number_toString : float -> string := fun _ => "0".

Definition no_options : Options :=
  {| model := None; temperature := None; max_tokens := None |}.

(** A first visit: nothing stored, nothing shown, nothing sent. *)
Definition freshState : State :=
  {| openai_apiKey := None; gemini_apiKey := None; localStorage := ∅;
     toasts := []; requests := []; console := [] |}.

(** ** The hook [useGemini]

    The hook keeps one piece of React state, [loading], and hands the
    credential operations of [geminiService] on with a toast. Its [toast]
    is the one of [useToast], the same queue the services write to. *)

Record HookState : Type := { loading : bool; world : State }.

Definition Hook (A : Type) : Type := HookState -> Completion A * HookState.

#[global] Instance Hook_ret : MRet Hook := fun A a h => (Normal a, h).
#[global] Instance Hook_bind : MBind Hook := fun A B f m h =>
  match m h with
  | (Normal a, h') => f a h'
  | (Abrupt e, h') => (Abrupt e, h')
  end.

Definition setLoading (b : bool) : Hook unit := fun h =>
  (Normal tt, {| loading := b; world := world h |}).

(** A call into the service module. *)
Definition service {A : Type} (m : JS A) : Hook A := fun h =>
  (fst (m (world h)), {| loading := loading h; world := snd (m (world h)) |}).

Definition hook_try_catch {A : Type} (body : Hook A) (handler : JsError -> Hook A)
    : Hook A :=
  fun h =>
    match body h with
    | (Normal a, h') => (Normal a, h')
    | (Abrupt e, h') => handler e h'
    end.

Module useGemini.
Definition savedToast : Toast :=
  {| title := "API Key Saved";
     description := "Your Gemini API key has been saved successfully";
     variant := None |}.

Definition removedToast : Toast :=
  {| title := "API Key Removed";
     description := "Your Gemini API key has been removed";
     variant := None |}.

Definition setApiKey (apiKey : string) : JS bool :=
  success ← GeminiService.setApiKey apiKey ;
  (if (success : bool) then toast savedToast else mret tt) ;;
  mret success.

Definition getApiKey : JS (option string) := GeminiService.getApiKey.

Definition clearApiKey : JS unit :=
  GeminiService.clearApiKey ;;
  toast removedToast.

Section Run.
Variable Number_toString : float -> string.
Variable network : Request -> Completion Response.

Definition generateResponse (messages : list ChatMessage) (options : Options)
    : Hook value :=
  setLoading true ;;
  hook_try_catch
    (response ← service (GeminiService.createChatCompletion Number_toString network
                           messages options) ;
     setLoading false ;;
     mret response)
    (fun error =>
       setLoading false ;;
       mret VNull).
End Run.
End useGemini.

(** ** The dialog [APIProviderSelection]

    The component keeps three pieces of React state; [handleSave] and the
    effect that runs when [open] changes are its two closures with effects.
    [useOpenAI] is not among the sources: the two functions the dialog takes
    from it are parameters, as are the prop [onOpenChange] and
    [String.prototype.trim]. *)

Inductive APIProvider : Type := openai | gemini.

#[global] Instance APIProvider_eq_dec : EqDecision APIProvider.
Proof. solve_decision. Defined.

Record Dialog : Type :=
  { provider : APIProvider; openAIKey : string; geminiKey : string }.

Definition setOpenAIKey (key : string) (d : Dialog) : Dialog :=
  {| provider := provider d; openAIKey := key; geminiKey := geminiKey d |}.

Definition setGeminiKey (key : string) (d : Dialog) : Dialog :=
  {| provider := provider d; openAIKey := openAIKey d; geminiKey := key |}.

Module APIProviderSelection.
Section Component.
Variable trim : string -> string.
Variable setOpenAIApiKey : string -> JS bool.
Variable getOpenAIApiKey : JS (option string).
Variable onOpenChange : bool -> JS unit.

Definition setGeminiApiKey : string -> JS bool := useGemini.setApiKey.
Definition getGeminiApiKey : JS (option string) := useGemini.getApiKey.

(** The effect "Initialize API key fields if they exist". *)
Definition initialize (d : Dialog) : JS Dialog :=
  openAIApiKey ← getOpenAIApiKey ;
  let d1 := match openAIApiKey with
            | Some key => if String.eqb key "" then d else setOpenAIKey key d
            | None => d
            end in
  geminiApiKey ← getGeminiApiKey ;
  mret (match geminiApiKey with
        | Some key => if String.eqb key "" then d1 else setGeminiKey key d1
        | None => d1
        end).

Definition handleSave (d : Dialog) : JS unit :=
  (if bool_decide (provider d = openai) && negb (String.eqb (trim (openAIKey d)) "")
   then setOpenAIApiKey (trim (openAIKey d)) ;; mret tt
   else if bool_decide (provider d = gemini)
           && negb (String.eqb (trim (geminiKey d)) "")
        then setGeminiApiKey (trim (geminiKey d)) ;; mret tt
        else mret tt) ;;
  onOpenChange false.

(** The [disabled] attribute of the button "Save API Key". *)
Definition saveDisabled (d : Dialog) : bool :=
  (bool_decide (provider d = openai) && String.eqb (trim (openAIKey d)) "")
  || (bool_decide (provider d = gemini) && String.eqb (trim (geminiKey d)) "").
End Component.
End APIProviderSelection.

(** A computation that returns, and leaves the cache of [geminiService]
    and what [localStorage] holds under its key as they were. *)
Definition keeps_gemini_key {A : Type} (m : JS A) : Prop :=
  forall s : State,
    exists (a : A) (s' : State),
      m s = (Normal a, s')
      /\ apiKey geminiService s' = apiKey geminiService s
      /\ localStorage s' !! GeminiService.storageKey
         = localStorage s !! GeminiService.storageKey.

#[global] Instance Service_eq_dec : EqDecision Service.
Proof. solve_decision. Defined.

(** The cache of a service, when it holds something, holds what
    [localStorage] holds under the service's key. *)
Definition coherent (this : Service) (storageKey : string) (s : State) : Prop :=
  apiKey this s = None \/ apiKey this s = localStorage s !! storageKey.

Definition coherent_world (s : State) : Prop :=
  coherent openaiService OpenAIService.storageKey s
  /\ coherent geminiService GeminiService.storageKey s.

(** The bodies from which [error.error?.message] gives nothing to show. *)
Definition no_error_message (props : list (string * value)) : Prop :=
  own_property "error" props = None
  \/ own_property "error" props = Some VNull
  \/ exists eprops : list (string * value),
       own_property "error" props = Some (VObject eprops)
       /\ (own_property "message" eprops = None
           \/ own_property "message" eprops = Some VNull
           \/ own_property "message" eprops = Some (VString "")).

(** Stands for [String.prototype.trim] in the instances below, whose
    strings have no white space at either end. *)
Definition sample_trim : string -> string := fun s => s.

(** * Properties *)

(** ** The monad *)

Ltac js_unfold :=
  unfold mbind, mret, JS_bind, JS_ret, Completion_bind, Completion_ret,
    try_catch, throw, lift, read_apiKey, write_apiKey, localStorage_getItem,
    localStorage_setItem, localStorage_removeItem, toast, console_error, fetch in *.

Lemma truthy_string_Some (o : option string) :
  truthy_string o = true <-> exists s, o = Some s /\ s <> "".
Proof.
  split.
  - destruct o as [s|]; simpl; [|discriminate].
    destruct (String.eqb_spec s ""); simpl; [discriminate|]. eauto.
  - intros (s & -> & Hs). simpl.
    destruct (String.eqb_spec s ""); simpl; congruence.
Qed.

Lemma truthy_string_false (o : option string) :
  truthy_string o = false <-> o = None \/ o = Some "".
Proof.
  split.
  - destruct o as [s|]; simpl; [|by left].
    destruct (String.eqb_spec s ""); simpl; [subst; by right | discriminate].
  - intros [-> | ->]; reflexivity.
Qed.

(** ** The world *)

Lemma with_apiKey_same (this : Service) (s : State) :
  with_apiKey this (apiKey this s) s = s.
Proof. by destruct this, s. Qed.

Lemma apiKey_with_apiKey (this : Service) (k : option string) (s : State) :
  apiKey this (with_apiKey this k s) = k.
Proof. by destruct this. Qed.

Lemma apiKey_with_apiKey_other (this other : Service) (k : option string) (s : State) :
  this <> other -> apiKey other (with_apiKey this k s) = apiKey other s.
Proof. by destruct this, other. Qed.

Lemma apiKey_with_localStorage (this : Service) (m : gmap string string) (s : State) :
  apiKey this (with_localStorage m s) = apiKey this s.
Proof. by destruct this. Qed.

Lemma localStorage_with_apiKey (this : Service) (k : option string) (s : State) :
  localStorage (with_apiKey this k s) = localStorage s.
Proof. by destruct this. Qed.

Lemma toasts_with_apiKey (this : Service) (k : option string) (s : State) :
  toasts (with_apiKey this k s) = toasts s.
Proof. by destruct this. Qed.

Lemma requests_with_apiKey (this : Service) (k : option string) (s : State) :
  requests (with_apiKey this k s) = requests s.
Proof. by destruct this. Qed.

Lemma console_with_apiKey (this : Service) (k : option string) (s : State) :
  console (with_apiKey this k s) = console s.
Proof. by destruct this. Qed.

Lemma apiKey_reload (this : Service) (s : State) : apiKey this (reload s) = None.
Proof. by destruct this. Qed.

Lemma localStorage_reload (s : State) : localStorage (reload s) = localStorage s.
Proof. reflexivity. Qed.

Create Rewrite HintDb world.
#[global] Hint Rewrite apiKey_with_apiKey apiKey_with_localStorage
  localStorage_with_apiKey toasts_with_apiKey requests_with_apiKey
  console_with_apiKey apiKey_reload localStorage_reload : world.

(** ** The credential store *)

Section CredentialStoreFacts.
Variable this : Service.
Variable k : string.

Lemma setApiKey_run (X : string) (s : State) :
  CredentialStore.setApiKey this k X s
  = (Normal true,
     with_localStorage (<[k := X]> (localStorage s)) (with_apiKey this (Some X) s)).
Proof.
  unfold CredentialStore.setApiKey. js_unfold. simpl.
  by rewrite localStorage_with_apiKey.
Qed.

Lemma clearApiKey_run (s : State) :
  CredentialStore.clearApiKey this k s
  = (Normal tt,
     with_localStorage (delete k (localStorage s)) (with_apiKey this None s)).
Proof.
  unfold CredentialStore.clearApiKey. js_unfold. simpl.
  by rewrite localStorage_with_apiKey.
Qed.

(** The cache answers when it holds a non-empty key. *)
Lemma getApiKey_cached (s : State) :
  truthy_string (apiKey this s) = true ->
  CredentialStore.getApiKey this k s = (Normal (apiKey this s), s).
Proof.
  intros H. unfold CredentialStore.getApiKey. js_unfold. by rewrite H.
Qed.

(** Read-through: a non-empty stored key fills the cache. *)
Lemma getApiKey_read_through (s : State) :
  truthy_string (apiKey this s) = false ->
  truthy_string (localStorage s !! k) = true ->
  CredentialStore.getApiKey this k s
  = (Normal (localStorage s !! k), with_apiKey this (localStorage s !! k) s).
Proof.
  intros Hc Hs. unfold CredentialStore.getApiKey. js_unfold.
  rewrite Hc. simpl. rewrite Hs. by rewrite apiKey_with_apiKey.
Qed.

(** Neither tier holds a non-empty key: the cache is returned as it is. *)
Lemma getApiKey_unset (s : State) :
  truthy_string (apiKey this s) = false ->
  truthy_string (localStorage s !! k) = false ->
  CredentialStore.getApiKey this k s = (Normal (apiKey this s), s).
Proof.
  intros Hc Hs. unfold CredentialStore.getApiKey. js_unfold.
  rewrite Hc. simpl. by rewrite Hs.
Qed.

(** [getApiKey] never throws, and an answer that is not a non-empty key
    leaves the world as it was. *)
Lemma getApiKey_total (s : State) :
  exists r s', CredentialStore.getApiKey this k s = (Normal r, s')
    /\ (truthy_string r = false -> s' = s)
    /\ toasts s' = toasts s /\ requests s' = requests s
    /\ console s' = console s /\ localStorage s' = localStorage s.
Proof.
  destruct (truthy_string (apiKey this s)) eqn:Hc.
  - rewrite getApiKey_cached by done. eauto 10.
  - destruct (truthy_string (localStorage s !! k)) eqn:Hs.
    + rewrite getApiKey_read_through by done.
      eexists _, _. split; [done|]. split; [congruence|].
      by autorewrite with world.
    + rewrite getApiKey_unset by done. eauto 10.
Qed.

Lemma set_then_get (X : string) (s : State) :
  CredentialStore.getApiKey this k (CredentialStore.setApiKey this k X s).2
  = (Normal (Some X), (CredentialStore.setApiKey this k X s).2).
Proof.
  rewrite setApiKey_run. simpl.
  destruct (decide (X = "")) as [-> | HX].
  - rewrite getApiKey_unset; autorewrite with world; simpl;
      rewrite ?lookup_insert_eq; done.
  - rewrite getApiKey_cached; autorewrite with world; [done|].
    apply truthy_string_Some. eauto.
Qed.

Lemma set_reload_get (X : string) (s : State) :
  X <> "" ->
  CredentialStore.getApiKey this k (reload (CredentialStore.setApiKey this k X s).2)
  = (Normal (Some X),
     with_apiKey this (Some X) (reload (CredentialStore.setApiKey this k X s).2)).
Proof.
  intros HX. rewrite setApiKey_run. simpl.
  rewrite getApiKey_read_through; autorewrite with world; simpl;
    rewrite ?lookup_insert_eq; try done.
  apply truthy_string_Some. eauto.
Qed.

Lemma set_empty_reload_get (s : State) :
  CredentialStore.getApiKey this k (reload (CredentialStore.setApiKey this k "" s).2)
  = (Normal None, reload (CredentialStore.setApiKey this k "" s).2).
Proof.
  rewrite setApiKey_run. simpl.
  rewrite getApiKey_unset; autorewrite with world; simpl;
    rewrite ?lookup_insert_eq; done.
Qed.

Lemma clear_then_get (s : State) :
  CredentialStore.getApiKey this k (CredentialStore.clearApiKey this k s).2
  = (Normal None, (CredentialStore.clearApiKey this k s).2).
Proof.
  rewrite clearApiKey_run. simpl.
  rewrite getApiKey_unset; autorewrite with world; simpl;
    rewrite ?lookup_delete_eq; done.
Qed.

Lemma stored_after_set (X : string) (s : State) :
  localStorage (CredentialStore.setApiKey this k X s).2 !! k = Some X
  /\ apiKey this (CredentialStore.setApiKey this k X s).2 = Some X.
Proof.
  rewrite setApiKey_run. simpl. autorewrite with world.
  by rewrite lookup_insert_eq.
Qed.

(** One service's key operations leave the other instance's field alone. *)
Lemma setApiKey_other (other : Service) (X : string) (s : State) :
  this <> other ->
  apiKey other (CredentialStore.setApiKey this k X s).2 = apiKey other s.
Proof.
  intros Hne. rewrite setApiKey_run. simpl. autorewrite with world.
  by apply apiKey_with_apiKey_other.
Qed.
End CredentialStoreFacts.

(** C6, as amended: for every secret [X], [getApiKey()] right after
    [setApiKey(X)] returns [X]; when [X] is not the empty string this also
    holds after a page load (cache empty, durable storage intact), and the
    read fills the cache again. *)
Theorem getApiKey_after_setApiKey (X : string) (s : State) :
  let s1 := (GeminiService.setApiKey X s).2 in
  (GeminiService.getApiKey s1).1 = Normal (Some X)
  /\ apiKey geminiService (reload s1) = None
  /\ localStorage (reload s1) !! GeminiService.storageKey = Some X
  /\ (X <> "" ->
      (GeminiService.getApiKey (reload s1)).1 = Normal (Some X)
      /\ apiKey geminiService (GeminiService.getApiKey (reload s1)).2 = Some X).
Proof.
  cbv zeta. unfold GeminiService.getApiKey, GeminiService.setApiKey.
  split; [by rewrite set_then_get|].
  split; [apply apiKey_reload|]. split.
  - rewrite localStorage_reload. apply stored_after_set.
  - intros HX. rewrite set_reload_get by done. cbn [fst snd].
    by rewrite apiKey_with_apiKey.
Qed.

Lemma getApiKey_after_setApiKey_witness :
  "AIza" <> ""
  /\ (GeminiService.getApiKey (reload (GeminiService.setApiKey "AIza" freshState).2)).1
     = Normal (Some "AIza").
Proof.
  split; [discriminate|].
  apply (getApiKey_after_setApiKey "AIza" freshState). discriminate.
Defined.

(** C6 as stated fails for the empty secret: after the cache is reset the
    store still holds [""], and [getApiKey()] returns [null]. *)
Lemma getApiKey_after_reload_empty_secret :
  let s1 := (GeminiService.setApiKey "" freshState).2 in
  localStorage (reload s1) !! GeminiService.storageKey = Some ""
  /\ (GeminiService.getApiKey (reload s1)).1 = Normal None
  /\ (GeminiService.getApiKey (reload s1)).1 <> Normal (Some "").
Proof.
  cbv zeta. unfold GeminiService.getApiKey, GeminiService.setApiKey.
  rewrite set_empty_reload_get, localStorage_reload. cbn [fst snd].
  split; [apply stored_after_set | done].
Qed.

(** C7: whatever the cache and [localStorage] held, [clearApiKey()] empties
    the cache and removes the stored key, and [getApiKey()] then returns
    [null]; the same for both services. *)
Theorem getApiKey_after_clearApiKey (s : State) :
  (let s1 := (GeminiService.clearApiKey s).2 in
   (GeminiService.clearApiKey s).1 = Normal tt
   /\ apiKey geminiService s1 = None
   /\ localStorage s1 !! GeminiService.storageKey = None
   /\ (GeminiService.getApiKey s1).1 = Normal None)
  /\
  (let s1 := (OpenAIService.clearApiKey s).2 in
   (OpenAIService.clearApiKey s).1 = Normal tt
   /\ apiKey openaiService s1 = None
   /\ localStorage s1 !! OpenAIService.storageKey = None
   /\ (OpenAIService.getApiKey s1).1 = Normal None).
Proof.
  split; cbv zeta.
  - unfold GeminiService.getApiKey, GeminiService.clearApiKey.
    rewrite clear_then_get, clearApiKey_run. simpl.
    by rewrite lookup_delete_eq.
  - unfold OpenAIService.getApiKey, OpenAIService.clearApiKey.
    rewrite clear_then_get, clearApiKey_run. simpl.
    by rewrite lookup_delete_eq.
Qed.

(** ** The translation to Gemini turns *)

Lemma find_system_None (messages : list ChatMessage) :
  Forall (fun msg => role msg <> system) messages ->
  List.find (fun msg => bool_decide (role msg = system)) messages = None.
Proof.
  induction 1 as [|msg l Hmsg _ IH]; simpl; [done|].
  by rewrite bool_decide_eq_false_2.
Qed.

Lemma filter_system_None (messages : list ChatMessage) :
  Forall (fun msg => role msg <> system) messages ->
  filter (fun msg => role msg <> system) messages = messages.
Proof.
  induction 1 as [|msg l Hmsg _ IH]; [done|].
  rewrite filter_cons_True by done. by rewrite IH.
Qed.

(** Every turn [convertToGeminiMessages] builds has one part, so the
    prefixing statement finds the part it assigns to. *)
Lemma convert_parts (messages : list ChatMessage) (turn : GeminiMessage) :
  turn ∈ GeminiService.convertToGeminiMessages messages ->
  exists msg, msg ∈ messages /\ role msg <> system
    /\ parts turn = [ {| text := content msg |} ]
    /\ gemini_role turn = (if decide (role msg = assistant) then gemini_model else gemini_user).
Proof.
  unfold GeminiService.convertToGeminiMessages.
  intros (msg & -> & Hin)%list_elem_of_fmap.
  apply list_elem_of_filter in Hin as [Hrole Hin]. eauto.
Qed.

Lemma contents_total (messages : list ChatMessage) :
  exists geminiMessages, GeminiService.contents messages = Normal geminiMessages.
Proof.
  unfold GeminiService.contents, GeminiService.prefixSystemMessage.
  destruct (List.find _ messages) as [sys|]; [|eauto].
  destruct (GeminiService.convertToGeminiMessages messages) as [|first rest] eqn:E; [eauto|].
  destruct (decide (gemini_role first = gemini_user)); [|eauto].
  destruct (convert_parts messages first) as (msg & _ & _ & -> & _); [|eauto].
  rewrite E. left.
Qed.

(** C2: without a system message nothing is dropped or reordered, each
    turn holds the message's content as its single text part, "assistant"
    becomes "model" and "user" stays "user"; the request carries exactly
    these turns. *)
Theorem convert_without_system (messages : list ChatMessage) :
  Forall (fun msg => role msg <> system) messages ->
  let turns := GeminiService.convertToGeminiMessages messages in
  GeminiService.contents messages = Normal turns
  /\ length turns = length messages
  /\ forall (i : nat) (msg : ChatMessage),
       messages !! i = Some msg ->
       exists turn, turns !! i = Some turn
         /\ parts turn = [ {| text := content msg |} ]
         /\ (role msg = assistant -> gemini_role turn = gemini_model)
         /\ (role msg = user -> gemini_role turn = gemini_user).
Proof.
  intros Hno. cbv zeta. split; [|split].
  - unfold GeminiService.contents. by rewrite find_system_None.
  - unfold GeminiService.convertToGeminiMessages.
    by rewrite length_fmap, filter_system_None.
  - intros i msg Hi. unfold GeminiService.convertToGeminiMessages.
    rewrite filter_system_None by done. rewrite list_lookup_fmap, Hi. simpl.
    eexists. split; [done|]. simpl. split; [done|].
    split; intros ->; done.
Qed.

Lemma convert_without_system_witness :
  Forall (fun msg => role msg <> system)
    [ {| role := user; content := "Hi" |}; {| role := assistant; content := "Hello" |} ]
  /\ GeminiService.contents
       [ {| role := user; content := "Hi" |}; {| role := assistant; content := "Hello" |} ]
     = Normal [ {| gemini_role := gemini_user; parts := [ {| text := "Hi" |} ] |};
                {| gemini_role := gemini_model; parts := [ {| text := "Hello" |} ] |} ].
Proof.
  assert (H : Forall (fun msg => role msg <> system)
    [ {| role := user; content := "Hi" |}; {| role := assistant; content := "Hello" |} ])
    by (repeat constructor; discriminate).
  split; [exact H|].
  exact (proj1 (convert_without_system _ H)).
Defined.

(** C1: when the list has a system message ([sys] is the first one) and its
    first message that is not a system message is a user message, the first
    turn is a user turn whose single text is [sys.content], two newlines
    and that user message's content; the turns after it are the remaining
    non-system messages, one each and in order, every text the message's
    content; there is no turn for a system message. *)
Theorem contents_prefixes_system (messages : list ChatMessage)
    (sys firstUser : ChatMessage) (others : list ChatMessage) :
  List.find (fun msg => bool_decide (role msg = system)) messages = Some sys ->
  filter (fun msg => role msg <> system) messages = firstUser :: others ->
  role firstUser = user ->
  exists (first : GeminiMessage) (rest : list GeminiMessage),
    GeminiService.contents messages = Normal (first :: rest)
    /\ gemini_role first = gemini_user
    /\ parts first = [ {| text := content sys +:+ newline +:+ newline +:+ content firstUser |} ]
    /\ length rest = length others
    /\ forall (i : nat) (msg : ChatMessage),
         others !! i = Some msg ->
         exists turn, rest !! i = Some turn
           /\ parts turn = [ {| text := content msg |} ]
           /\ gemini_role turn
              = (if decide (role msg = assistant) then gemini_model else gemini_user).
Proof.
  intros Hsys Hfilter Huser.
  unfold GeminiService.contents, GeminiService.convertToGeminiMessages.
  rewrite Hsys, Hfilter, fmap_cons. simpl.
  rewrite Huser. simpl.
  eexists _, _. split; [done|]. simpl.
  split; [done|]. split; [done|]. split; [by rewrite length_fmap|].
  intros i msg Hi. rewrite list_lookup_fmap, Hi. simpl. eauto.
Qed.

Lemma contents_prefixes_system_witness :
  GeminiService.contents
    [ {| role := system; content := "Be terse." |}; {| role := user; content := "Hi" |} ]
  = Normal [ {| gemini_role := gemini_user;
                parts := [ {| text := "Be terse." +:+ newline +:+ newline +:+ "Hi" |} ] |} ].
Proof.
  destruct (contents_prefixes_system
              [ {| role := system; content := "Be terse." |};
                {| role := user; content := "Hi" |} ]
              {| role := system; content := "Be terse." |}
              {| role := user; content := "Hi" |} []
              eq_refl eq_refl eq_refl)
    as (first & rest & -> & Hrole & Hparts & Hlen & _).
  destruct first as [r p], rest as [|? ?]; simpl in *; [|discriminate].
  by subst.
Defined.

(** ** [createChatCompletion] *)

Section Runs.
Variable Number_toString : float -> string.
Variable network : Request -> Completion Response.

(** Without a non-empty key: one toast, no request, [null]. *)
Lemma openai_without_key (messages : list ChatMessage) (options : Options)
    (s : State) (r : option string) :
  (OpenAIService.getApiKey s).1 = Normal r ->
  truthy_string r = false ->
  OpenAIService.createChatCompletion Number_toString network messages options s
  = (Normal VNull, with_toasts (toasts s ++ [OpenAIService.missingToast]) s).
Proof.
  intros Hget Hr.
  destruct (getApiKey_total openaiService OpenAIService.storageKey s) as (r' & s' & E & Hs & _).
  fold OpenAIService.getApiKey in E. rewrite E in Hget. simpl in Hget.
  injection Hget as ->. rewrite (Hs Hr) in E.
  unfold OpenAIService.createChatCompletion. js_unfold. rewrite E. simpl.
  by rewrite Hr.
Qed.

Lemma gemini_without_key (messages : list ChatMessage) (options : Options)
    (s : State) (r : option string) :
  (GeminiService.getApiKey s).1 = Normal r ->
  truthy_string r = false ->
  GeminiService.createChatCompletion Number_toString network messages options s
  = (Normal VNull, with_toasts (toasts s ++ [GeminiService.missingToast]) s).
Proof.
  intros Hget Hr.
  destruct (getApiKey_total geminiService GeminiService.storageKey s) as (r' & s' & E & Hs & _).
  fold GeminiService.getApiKey in E. rewrite E in Hget. simpl in Hget.
  injection Hget as ->. rewrite (Hs Hr) in E.
  unfold GeminiService.createChatCompletion. js_unfold. rewrite E. simpl.
  by rewrite Hr.
Qed.

(** With a key: one request; its outcome is returned, or reported and
    replaced by [null]. *)
Lemma openai_with_key (messages : list ChatMessage) (options : Options)
    (s s1 : State) (r : option string) :
  OpenAIService.getApiKey s = (Normal r, s1) ->
  truthy_string r = true ->
  let rq := OpenAIService.request r messages options in
  OpenAIService.createChatCompletion Number_toString network messages options s
  = match openai_outcome Number_toString (network rq) with
    | Normal v => (Normal v, sent rq s1)
    | Abrupt e =>
        (Normal VNull,
         reported OpenAIService.failedToast "OpenAI API Error:" e (sent rq s1))
    end.
Proof.
  intros E Hr. cbv zeta.
  unfold OpenAIService.createChatCompletion, openai_outcome. js_unfold.
  rewrite E. simpl. rewrite Hr. simpl.
  destruct (network _) as [[okb [data|e]]|e]; simpl; [| |done].
  - destruct okb; simpl.
    + by destruct (OpenAIService.first_choice_message data).
    + destruct (error_message data) as [given|e]; [|done].
      by destruct (new_Error _ _ _).
  - by destruct okb.
Qed.

Lemma gemini_with_key (messages : list ChatMessage) (options : Options)
    (s s1 : State) (r : option string) (geminiMessages : list GeminiMessage) :
  GeminiService.getApiKey s = (Normal r, s1) ->
  truthy_string r = true ->
  GeminiService.contents messages = Normal geminiMessages ->
  let rq := GeminiService.request r geminiMessages options in
  GeminiService.createChatCompletion Number_toString network messages options s
  = match gemini_outcome Number_toString (network rq) with
    | Normal v => (Normal v, sent rq s1)
    | Abrupt e =>
        (Normal VNull,
         reported GeminiService.failedToast "Gemini API Error:" e (sent rq s1))
    end.
Proof.
  intros E Hr Hc. cbv zeta.
  unfold GeminiService.createChatCompletion, gemini_outcome. js_unfold.
  rewrite E. simpl. rewrite Hr. simpl. rewrite Hc.
  destruct (network _) as [[okb [data|e]]|e]; simpl; [| |done].
  - destruct okb; simpl.
    + destruct (GeminiService.no_candidates data) as [[]|e]; [done| |done].
      by destruct (GeminiService.first_text data).
    + destruct (error_message data) as [given|e]; [|done].
      by destruct (new_Error _ _ _).
  - by destruct okb.
Qed.
End Runs.

(** C4: when the credential resolves as [null], [createChatCompletion]
    returns [null], adds the one "API Key Missing" toast and nothing else
    changes; in particular no request is sent. Both services. *)
Theorem createChatCompletion_without_credential
    (Number_toString : float -> string) (network : Request -> Completion Response)
    (messages : list ChatMessage) (options : Options) (s : State) :
  ((OpenAIService.getApiKey s).1 = Normal None ->
   let out := OpenAIService.createChatCompletion Number_toString network messages options s in
   out.1 = Normal VNull
   /\ toasts out.2 = toasts s ++ [OpenAIService.missingToast]
   /\ requests out.2 = requests s
   /\ out.2 = with_toasts (toasts s ++ [OpenAIService.missingToast]) s)
  /\
  ((GeminiService.getApiKey s).1 = Normal None ->
   let out := GeminiService.createChatCompletion Number_toString network messages options s in
   out.1 = Normal VNull
   /\ toasts out.2 = toasts s ++ [GeminiService.missingToast]
   /\ requests out.2 = requests s
   /\ out.2 = with_toasts (toasts s ++ [GeminiService.missingToast]) s).
Proof.
  split; intros Hget; cbv zeta.
  - by rewrite (openai_without_key _ _ _ _ _ None Hget).
  - by rewrite (gemini_without_key _ _ _ _ _ None Hget).
Qed.

Lemma createChatCompletion_without_credential_witness :
  ((OpenAIService.getApiKey freshState).1 = Normal None
   /\ (OpenAIService.createChatCompletion sample_Number_toString
         (answering (Abrupt (TypeError "Failed to fetch")))
         [ {| role := user; content := "Hi" |} ] no_options freshState).1 = Normal VNull)
  /\
  ((GeminiService.getApiKey freshState).1 = Normal None
   /\ (GeminiService.createChatCompletion sample_Number_toString
         (answering (Abrupt (TypeError "Failed to fetch")))
         [ {| role := user; content := "Hi" |} ] no_options freshState).1 = Normal VNull).
Proof.
  pose proof (createChatCompletion_without_credential sample_Number_toString
                (answering (Abrupt (TypeError "Failed to fetch")))
                [ {| role := user; content := "Hi" |} ] no_options freshState) as [HA HB].
  split; (split; [reflexivity|]).
  - apply HA. reflexivity.
  - apply HB. reflexivity.
Defined.

(** C10: the empty string as a credential. [setApiKey("")] reports success
    and stores [""] in [localStorage] and in the cache; [getApiKey()] right
    after it returns [""]; [createChatCompletion] takes that [""] for a
    missing key ([null], the "API Key Missing" toast, no request); on a new
    instance [getApiKey()] returns [null] although [localStorage] still
    holds [""]. A non-empty key is sent with a request and survives the
    new instance. *)
Theorem empty_credential
    (Number_toString : float -> string) (network : Request -> Completion Response)
    (messages : list ChatMessage) (options : Options) (s : State) :
  (let s1 := (GeminiService.setApiKey "" s).2 in
   (GeminiService.setApiKey "" s).1 = Normal true
   /\ localStorage s1 !! GeminiService.storageKey = Some ""
   /\ apiKey geminiService s1 = Some ""
   /\ GeminiService.getApiKey s1 = (Normal (Some ""), s1)
   /\ GeminiService.createChatCompletion Number_toString network messages options s1
      = (Normal VNull, with_toasts (toasts s ++ [GeminiService.missingToast]) s1)
   /\ GeminiService.getApiKey (reload s1) = (Normal None, reload s1)
   /\ localStorage (reload s1) !! GeminiService.storageKey = Some "")
  /\
  (forall X : string, X <> "" ->
   let s1 := (GeminiService.setApiKey X s).2 in
   (GeminiService.getApiKey (reload s1)).1 = Normal (Some X)
   /\ exists rq : Request,
        requests (GeminiService.createChatCompletion Number_toString network
                    messages options s1).2 = requests s ++ [rq]
        /\ toasts (GeminiService.createChatCompletion Number_toString network
                     messages options s1).2
           <> toasts s ++ [GeminiService.missingToast]).
Proof.
  assert (Hset : forall X, toasts (GeminiService.setApiKey X s).2 = toasts s
                           /\ requests (GeminiService.setApiKey X s).2 = requests s).
  { intros X. unfold GeminiService.setApiKey. rewrite setApiKey_run. simpl.
    by autorewrite with world. }
  assert (Hget : forall X, GeminiService.getApiKey (GeminiService.setApiKey X s).2
                           = (Normal (Some X), (GeminiService.setApiKey X s).2)).
  { intros X. unfold GeminiService.getApiKey, GeminiService.setApiKey.
    apply set_then_get. }
  split.
  - cbv zeta. split.
    { unfold GeminiService.setApiKey. by rewrite setApiKey_run. }
    split; [apply stored_after_set|]. split; [apply stored_after_set|].
    split; [apply Hget|]. split.
    { rewrite (gemini_without_key _ _ _ _ _ (Some ""));
        [| by rewrite Hget | done].
      by rewrite (proj1 (Hset "")). }
    unfold GeminiService.getApiKey, GeminiService.setApiKey.
    rewrite set_empty_reload_get, localStorage_reload.
    split; [done | apply stored_after_set].
  - intros X HX. cbv zeta. split.
    { unfold GeminiService.getApiKey, GeminiService.setApiKey.
      by rewrite set_reload_get. }
    destruct (contents_total messages) as [geminiMessages Hc].
    assert (Ht : truthy_string (Some X) = true) by (apply truthy_string_Some; eauto).
    rewrite (gemini_with_key _ _ _ _ _ _ _ _ (Hget X) Ht Hc). cbv zeta.
    destruct (Hset X) as [HtX HrX].
    eexists. destruct (gemini_outcome _ _); cbn [fst snd]; unfold reported, sent;
      cbn [toasts requests with_console with_toasts with_requests];
      rewrite ?HtX, ?HrX.
    + split; [reflexivity|].
      intros Heq. apply (f_equal length) in Heq. rewrite length_app in Heq.
      simpl in Heq. lia.
    + split; [reflexivity|].
      intros Heq. apply app_inv_head in Heq. discriminate Heq.
Qed.

Lemma empty_credential_witness :
  "AIza" <> ""
  /\ (GeminiService.getApiKey
        (reload (GeminiService.setApiKey "AIza" freshState).2)).1
     = Normal (Some "AIza").
Proof.
  split; [discriminate|].
  apply (proj2 (empty_credential sample_Number_toString
                  (answering (Abrupt (TypeError "Failed to fetch")))
                  [] no_options freshState) "AIza").
  discriminate.
Defined.

(** ** What a request leads to *)

Lemma openai_outcome_Normal (Number_toString : float -> string)
    (reply : Completion Response) (v : value) :
  openai_outcome Number_toString reply = Normal v ->
  exists (response : Response) (data : value),
    reply = Normal response /\ ok response = true /\ json response = Normal data
    /\ OpenAIService.first_choice_message data = Normal v.
Proof.
  unfold openai_outcome. js_unfold.
  destruct reply as [[okb [data|e]]|e]; simpl; [| |done].
  - destruct okb; simpl; [eauto 10|].
    destruct (error_message data) as [given|e]; [|done].
    by destruct (new_Error _ _ _).
  - by destruct okb.
Qed.

Lemma gemini_outcome_Normal (Number_toString : float -> string)
    (reply : Completion Response) (v : value) :
  gemini_outcome Number_toString reply = Normal v ->
  exists (response : Response) (data txt : value),
    reply = Normal response /\ ok response = true /\ json response = Normal data
    /\ GeminiService.no_candidates data = Normal false
    /\ GeminiService.first_text data = Normal txt
    /\ v = VObject [("role", VString "assistant"); ("content", txt)].
Proof.
  unfold gemini_outcome. js_unfold.
  destruct reply as [[okb [data|e]]|e]; simpl; [| |done].
  - destruct okb; simpl.
    + destruct (GeminiService.no_candidates data) as [[]|e] eqn:En; [done| |done].
      destruct (GeminiService.first_text data) as [txt|e] eqn:Et; [|done].
      intros [= <-]. eauto 12.
    + destruct (error_message data) as [given|e]; [|done].
      by destruct (new_Error _ _ _).
  - by destruct okb.
Qed.

Section Effects.
Variable Number_toString : float -> string.
Variable network : Request -> Completion Response.

(** The visible effects of a call made with a key. *)
Lemma openai_run (messages : list ChatMessage) (options : Options)
    (s : State) (r : option string) :
  (OpenAIService.getApiKey s).1 = Normal r ->
  truthy_string r = true ->
  let rq := OpenAIService.request r messages options in
  let out := OpenAIService.createChatCompletion Number_toString network
               messages options s in
  requests out.2 = requests s ++ [rq]
  /\ localStorage out.2 = localStorage s
  /\ match openai_outcome Number_toString (network rq) with
     | Normal v =>
         out.1 = Normal v /\ toasts out.2 = toasts s /\ console out.2 = console s
     | Abrupt e =>
         out.1 = Normal VNull
         /\ toasts out.2 = toasts s ++ [OpenAIService.failedToast e]
         /\ console out.2 = console s ++ [("OpenAI API Error:", e)]
     end.
Proof.
  intros Hget Hr. cbv zeta.
  destruct (getApiKey_total openaiService OpenAIService.storageKey s)
    as (r' & s1 & E & _ & Ht & Hq & Hc & Hl).
  fold OpenAIService.getApiKey in E. rewrite E in Hget. simpl in Hget.
  injection Hget as ->.
  rewrite (openai_with_key _ _ _ _ _ _ _ E Hr). cbv zeta.
  destruct (openai_outcome _ _); simpl; rewrite ?Ht, ?Hq, ?Hc, ?Hl; done.
Qed.

Lemma gemini_run (messages : list ChatMessage) (options : Options)
    (s : State) (r : option string) :
  (GeminiService.getApiKey s).1 = Normal r ->
  truthy_string r = true ->
  exists geminiMessages : list GeminiMessage,
    GeminiService.contents messages = Normal geminiMessages
    /\ let rq := GeminiService.request r geminiMessages options in
       let out := GeminiService.createChatCompletion Number_toString network
                    messages options s in
       requests out.2 = requests s ++ [rq]
       /\ localStorage out.2 = localStorage s
       /\ match gemini_outcome Number_toString (network rq) with
          | Normal v =>
              out.1 = Normal v /\ toasts out.2 = toasts s /\ console out.2 = console s
          | Abrupt e =>
              out.1 = Normal VNull
              /\ toasts out.2 = toasts s ++ [GeminiService.failedToast e]
              /\ console out.2 = console s ++ [("Gemini API Error:", e)]
          end.
Proof.
  intros Hget Hr.
  destruct (contents_total messages) as [geminiMessages Hcont].
  exists geminiMessages. split; [done|]. cbv zeta.
  destruct (getApiKey_total geminiService GeminiService.storageKey s)
    as (r' & s1 & E & _ & Ht & Hq & Hc & Hl).
  fold GeminiService.getApiKey in E. rewrite E in Hget. simpl in Hget.
  injection Hget as ->.
  rewrite (gemini_with_key _ _ _ _ _ _ _ _ E Hr Hcont). cbv zeta.
  destruct (gemini_outcome _ _); simpl; rewrite ?Ht, ?Hq, ?Hc, ?Hl; done.
Qed.

(** Every call returns. *)
Lemma openai_returns (messages : list ChatMessage) (options : Options) (s : State) :
  exists (v : value) (s' : State),
    OpenAIService.createChatCompletion Number_toString network messages options s
    = (Normal v, s')
    /\ (v = VNull
        \/ exists (key : option string) (response : Response) (data : value),
             (OpenAIService.getApiKey s).1 = Normal key
             /\ network (OpenAIService.request key messages options) = Normal response
             /\ ok response = true
             /\ json response = Normal data
             /\ OpenAIService.first_choice_message data = Normal v).
Proof.
  destruct (getApiKey_total openaiService OpenAIService.storageKey s) as (r & s1 & E & _).
  fold OpenAIService.getApiKey in E.
  destruct (truthy_string r) eqn:Hr.
  - rewrite (openai_with_key _ _ _ _ _ _ _ E Hr). cbv zeta.
    destruct (openai_outcome _ _) as [v|e] eqn:Eo.
    + eexists _, _. split; [done|]. right.
      apply openai_outcome_Normal in Eo as (response & data & ? & ? & ? & ?).
      exists r, response, data. by rewrite E.
    + eexists _, _. split; [done|]. by left.
  - rewrite (openai_without_key _ _ _ _ _ r); [| by rewrite E | done].
    eexists _, _. split; [done|]. by left.
Qed.

Lemma gemini_returns (messages : list ChatMessage) (options : Options) (s : State) :
  exists (v : value) (s' : State),
    GeminiService.createChatCompletion Number_toString network messages options s
    = (Normal v, s')
    /\ (v = VNull
        \/ exists txt : value,
             v = VObject [("role", VString "assistant"); ("content", txt)]).
Proof.
  destruct (getApiKey_total geminiService GeminiService.storageKey s) as (r & s1 & E & _).
  fold GeminiService.getApiKey in E.
  destruct (truthy_string r) eqn:Hr.
  - destruct (contents_total messages) as [geminiMessages Hcont].
    rewrite (gemini_with_key _ _ _ _ _ _ _ _ E Hr Hcont). cbv zeta.
    destruct (gemini_outcome _ _) as [v|e] eqn:Eo.
    + eexists _, _. split; [done|]. right.
      apply gemini_outcome_Normal in Eo as (? & ? & txt & ? & ? & ? & ? & ? & ?).
      eauto.
    + eexists _, _. split; [done|]. by left.
  - rewrite (gemini_without_key _ _ _ _ _ r); [| by rewrite E | done].
    eexists _, _. split; [done|]. by left.
Qed.
End Effects.

(** C3, as amended: whatever the messages, the options, the stored
    credential and the behaviour of the network (rejection, non-2xx status,
    body that is not JSON or has another shape, no candidates),
    [createChatCompletion] throws nothing and returns a value. Provider-B
    returns [null] or an object with role "assistant"; Provider-A returns
    [null] or the [message] of the first choice as the response holds it,
    its role not looked at. *)
Theorem createChatCompletion_returns
    (Number_toString : float -> string) (network : Request -> Completion Response)
    (messages : list ChatMessage) (options : Options) (s : State) :
  (exists (v : value) (s' : State),
     OpenAIService.createChatCompletion Number_toString network messages options s
     = (Normal v, s')
     /\ (v = VNull
         \/ exists (key : option string) (response : Response) (data : value),
              (OpenAIService.getApiKey s).1 = Normal key
              /\ network (OpenAIService.request key messages options) = Normal response
              /\ ok response = true
              /\ json response = Normal data
              /\ OpenAIService.first_choice_message data = Normal v))
  /\
  (exists (v : value) (s' : State),
     GeminiService.createChatCompletion Number_toString network messages options s
     = (Normal v, s')
     /\ (v = VNull
         \/ exists txt : value,
              v = VObject [("role", VString "assistant"); ("content", txt)])).
Proof.
  split; [apply openai_returns | apply gemini_returns].
Qed.

(** C3 as stated fails on Provider-A: a 2xx response whose first choice
    carries a message of role "user" is returned as it is, neither [null]
    nor an assistant message. *)
Lemma openai_returns_user_message :
  let data :=
    VObject [("choices",
              VArray [VObject [("index", VNumber 0);
                               ("message", VObject [("role", VString "user");
                                                    ("content", VString "Hi")]);
                               ("finish_reason", VString "stop")]])] in
  let out :=
    OpenAIService.createChatCompletion sample_Number_toString
      (answering (Normal {| ok := true; json := Normal data |}))
      [ {| role := user; content := "Hi" |} ] no_options
      (OpenAIService.setApiKey "sk-1" freshState).2 in
  out.1 = Normal (VObject [("role", VString "user"); ("content", VString "Hi")])
  /\ out.1 <> Normal VNull
  /\ ~ (exists v, out.1 = Normal v /\ (v = VNull \/ is_assistant_message v = true)).
Proof.
  cbv zeta.
  assert (E : (OpenAIService.createChatCompletion sample_Number_toString
      (answering (Normal {| ok := true; json := Normal
         (VObject [("choices",
              VArray [VObject [("index", VNumber 0);
                               ("message", VObject [("role", VString "user");
                                                    ("content", VString "Hi")]);
                               ("finish_reason", VString "stop")]])]) |}))
      [ {| role := user; content := "Hi" |} ] no_options
      (OpenAIService.setApiKey "sk-1" freshState).2).1
    = Normal (VObject [("role", VString "user"); ("content", VString "Hi")]))
    by (vm_compute; reflexivity).
  rewrite E. split; [done|]. split; [done|].
  intros (v & [= <-] & [Hv | Hv]); discriminate.
Qed.

(** C9: on a 2xx response whose [choices] starts with an object that has
    a [message], Provider-A returns that [message] itself; nothing is
    reported. *)
Theorem openai_first_choice_verbatim
    (Number_toString : float -> string) (network : Request -> Completion Response)
    (messages : list ChatMessage) (options : Options) (s : State) (k : string)
    (response : Response) (props choice : list (string * value))
    (more : list value) (msg : value) :
  (OpenAIService.getApiKey s).1 = Normal (Some k) ->
  k <> "" ->
  network (OpenAIService.request (Some k) messages options) = Normal response ->
  ok response = true ->
  json response = Normal (VObject props) ->
  own_property "choices" props = Some (VArray (VObject choice :: more)) ->
  own_property "message" choice = Some msg ->
  let out := OpenAIService.createChatCompletion Number_toString network
               messages options s in
  out.1 = Normal msg
  /\ toasts out.2 = toasts s
  /\ console out.2 = console s
  /\ requests out.2 = requests s ++ [OpenAIService.request (Some k) messages options].
Proof.
  intros Hget Hk Hnet Hok Hjson Hchoices Hmsg. cbv zeta.
  assert (Ht : truthy_string (Some k) = true) by (apply truthy_string_Some; eauto).
  destruct (openai_run Number_toString network messages options s _ Hget Ht)
    as (Hrq & _ & Hout).
  rewrite Hnet in Hout. unfold openai_outcome in Hout. js_unfold.
  rewrite Hok, Hjson in Hout. unfold OpenAIService.first_choice_message in Hout.
  js_unfold. simpl in Hout. rewrite Hchoices in Hout. simpl in Hout.
  rewrite Hmsg in Hout. simpl in Hout.
  destruct Hout as (? & ? & ?). done.
Qed.

Lemma openai_first_choice_verbatim_witness :
  (OpenAIService.createChatCompletion sample_Number_toString
     (answering
        (Normal {| ok := true;
                   json := Normal
                     (VObject [("choices",
                                VArray [VObject
                                          [("message",
                                            VObject [("role", VString "assistant");
                                                     ("content", VString "Hello")])]])]) |}))
     [ {| role := user; content := "Hi" |} ] no_options
     (OpenAIService.setApiKey "sk-1" freshState).2).1
  = Normal (VObject [("role", VString "assistant"); ("content", VString "Hello")]).
Proof.
  refine (proj1 (openai_first_choice_verbatim sample_Number_toString
            (answering _) [ {| role := user; content := "Hi" |} ] no_options
            (OpenAIService.setApiKey "sk-1" freshState).2 "sk-1"
            _ _ _ [] _ _ _ _ _ _ _ _)).
  - vm_compute. reflexivity.
  - discriminate.
  - reflexivity.
  - reflexivity.
  - reflexivity.
  - reflexivity.
  - reflexivity.
Defined.

(** C5, as amended: on a 2xx response from Provider-B, (a) when the body
    has no [candidates] or an empty list of them, the call returns [null]
    and reports the error "No response generated from Gemini API"
    (EmptyResponse); (b) when the first candidate's content has at least one
    part, the call returns role "assistant" with the [text] of that first
    part as content, and reports nothing. *)
Theorem gemini_candidates
    (Number_toString : float -> string) (network : Request -> Completion Response)
    (messages : list ChatMessage) (options : Options) (s : State) (k : string)
    (geminiMessages : list GeminiMessage) (response : Response)
    (props : list (string * value)) :
  (GeminiService.getApiKey s).1 = Normal (Some k) ->
  k <> "" ->
  GeminiService.contents messages = Normal geminiMessages ->
  network (GeminiService.request (Some k) geminiMessages options) = Normal response ->
  ok response = true ->
  json response = Normal (VObject props) ->
  let out := GeminiService.createChatCompletion Number_toString network
               messages options s in
  (own_property "candidates" props = None
   \/ own_property "candidates" props = Some (VArray []) ->
   out.1 = Normal VNull
   /\ toasts out.2 = toasts s ++ [GeminiService.failedToast GeminiService.EmptyResponse]
   /\ description (GeminiService.failedToast GeminiService.EmptyResponse)
      = "No response generated from Gemini API"
   /\ console out.2 = console s ++ [("Gemini API Error:", GeminiService.EmptyResponse)])
  /\
  (forall (candidate cont part : list (string * value)) (more parts' : list value)
          (txt : value),
   own_property "candidates" props = Some (VArray (VObject candidate :: more)) ->
   own_property "content" candidate = Some (VObject cont) ->
   own_property "parts" cont = Some (VArray (VObject part :: parts')) ->
   own_property "text" part = Some txt ->
   out.1 = Normal (VObject [("role", VString "assistant"); ("content", txt)])
   /\ toasts out.2 = toasts s
   /\ console out.2 = console s).
Proof.
  intros Hget Hk Hcont Hnet Hok Hjson. cbv zeta.
  assert (Ht : truthy_string (Some k) = true) by (apply truthy_string_Some; eauto).
  destruct (gemini_run Number_toString network messages options s _ Hget Ht)
    as (gm & Hcont' & _ & _ & Hout).
  rewrite Hcont in Hcont'. injection Hcont' as <-.
  rewrite Hnet in Hout. unfold gemini_outcome in Hout. js_unfold.
  rewrite Hok, Hjson in Hout.
  unfold GeminiService.no_candidates, GeminiService.first_text in Hout.
  js_unfold. simpl in Hout.
  split.
  - intros [Hc | Hc]; rewrite Hc in Hout; simpl in Hout;
      destruct Hout as (? & ? & ?); done.
  - intros candidate cont part more parts' txt Hc Hcontent Hparts Htext.
    rewrite Hc in Hout. simpl in Hout. rewrite Hcontent in Hout. simpl in Hout.
    rewrite Hparts in Hout. simpl in Hout. rewrite Htext in Hout. simpl in Hout.
    done.
Qed.

Lemma gemini_candidates_witness :
  let reply (data : value) := answering (Normal {| ok := true; json := Normal data |}) in
  let s := (GeminiService.setApiKey "AIza" freshState).2 in
  (GeminiService.createChatCompletion sample_Number_toString
     (reply (VObject [("candidates", VArray [])]))
     [ {| role := user; content := "Hi" |} ] no_options s).1 = Normal VNull
  /\
  (GeminiService.createChatCompletion sample_Number_toString
     (reply (VObject
               [("candidates",
                 VArray [VObject
                           [("content",
                             VObject [("parts", VArray [VObject [("text", VString "Hello")]]);
                                      ("role", VString "model")]);
                            ("finishReason", VString "STOP")]])]))
     [ {| role := user; content := "Hi" |} ] no_options s).1
  = Normal (VObject [("role", VString "assistant"); ("content", VString "Hello")]).
Proof.
  cbv zeta. split.
  - refine (proj1 (proj1 (gemini_candidates sample_Number_toString (answering _)
              [ {| role := user; content := "Hi" |} ] no_options
              (GeminiService.setApiKey "AIza" freshState).2 "AIza"
              _ _ _ _ _ _ _ _ _) _)).
    + vm_compute. reflexivity.
    + discriminate.
    + reflexivity.
    + reflexivity.
    + reflexivity.
    + reflexivity.
    + right. reflexivity.
  - refine (proj1 (proj2 (gemini_candidates sample_Number_toString (answering _)
              [ {| role := user; content := "Hi" |} ] no_options
              (GeminiService.setApiKey "AIza" freshState).2 "AIza"
              _ _ _ _ _ _ _ _ _) _ _ _ _ _ _ _ _ _ _)).
    + vm_compute. reflexivity.
    + discriminate.
    + reflexivity.
    + reflexivity.
    + reflexivity.
    + reflexivity.
    + reflexivity.
    + reflexivity.
    + reflexivity.
    + reflexivity.
Defined.

(** C5 as stated fails on a response with one candidate whose content has
    no part (what the API sends when it blocks an answer): the call returns
    [null], and the error reported is not EmptyResponse. *)
Lemma gemini_candidate_without_parts :
  let data :=
    VObject [("candidates",
              VArray [VObject [("content", VObject [("parts", VArray []);
                                                    ("role", VString "model")]);
                               ("finishReason", VString "SAFETY")]])] in
  let out :=
    GeminiService.createChatCompletion sample_Number_toString
      (answering (Normal {| ok := true; json := Normal data |}))
      [ {| role := user; content := "Hi" |} ] no_options
      (GeminiService.setApiKey "AIza" freshState).2 in
  out.1 = Normal VNull
  /\ (forall txt : value,
        out.1 <> Normal (VObject [("role", VString "assistant"); ("content", txt)]))
  /\ console out.2
     = [("Gemini API Error:",
         TypeError "Cannot read properties of undefined (reading 'text')")].
Proof.
  cbv zeta.
  match goal with
  | |- ?o.1 = _ /\ _ /\ console ?o.2 = _ =>
      assert (E1 : o.1 = Normal VNull) by (vm_compute; reflexivity);
      assert (E2 : console o.2
                   = [("Gemini API Error:",
                       TypeError "Cannot read properties of undefined (reading 'text')")])
        by (vm_compute; reflexivity)
  end.
  rewrite E1, E2. split; [done|]. split; [|done]. intros txt. discriminate.
Qed.

(** C8, as amended: the request of a call made with a key names the
    service's default model ("gpt-4o-mini" in the body for Provider-A,
    "gemini-pro" in the URL for Provider-B) when [options.model] is unset or
    the empty string and the given model otherwise; its temperature is 0.7
    when [options.temperature] is unset and the given number otherwise, 0
    included. *)
Theorem request_defaults
    (Number_toString : float -> string) (network : Request -> Completion Response)
    (messages : list ChatMessage) (options : Options) (s : State) (k : string) :
  k <> "" ->
  ((OpenAIService.getApiKey s).1 = Normal (Some k) ->
   exists rq : Request,
     requests (OpenAIService.createChatCompletion Number_toString network
                 messages options s).2 = requests s ++ [rq]
     /\ (model options = None \/ model options = Some "" ->
         field "model" (body rq) = Some (VString "gpt-4o-mini"))
     /\ (forall m : string, model options = Some m -> m <> "" ->
         field "model" (body rq) = Some (VString m))
     /\ (temperature options = None ->
         field "temperature" (body rq) = Some (VNumber 0.7%float))
     /\ (forall t : float, temperature options = Some t ->
         field "temperature" (body rq) = Some (VNumber t)))
  /\
  ((GeminiService.getApiKey s).1 = Normal (Some k) ->
   exists (rq : Request) (config : value),
     requests (GeminiService.createChatCompletion Number_toString network
                 messages options s).2 = requests s ++ [rq]
     /\ field "generationConfig" (body rq) = Some config
     /\ (model options = None \/ model options = Some "" ->
         url rq = GeminiService.baseUrl +:+ "/models/" +:+ "gemini-pro"
                  +:+ ":generateContent?key=" +:+ k)
     /\ (forall m : string, model options = Some m -> m <> "" ->
         url rq = GeminiService.baseUrl +:+ "/models/" +:+ m
                  +:+ ":generateContent?key=" +:+ k)
     /\ (temperature options = None ->
         field "temperature" config = Some (VNumber 0.7%float))
     /\ (forall t : float, temperature options = Some t ->
         field "temperature" config = Some (VNumber t))).
Proof.
  intros Hk.
  assert (Ht : truthy_string (Some k) = true) by (apply truthy_string_Some; eauto).
  assert (Hm : forall m : string, m <> "" -> or_string (Some m) = fun d => m).
  { intros m Hm. unfold or_string. by destruct (String.eqb_spec m ""). }
  split; intros Hget.
  - destruct (openai_run Number_toString network messages options s _ Hget Ht)
      as (Hrq & _).
    eexists. split; [exact Hrq|]. simpl.
    split; [by intros [-> | ->]|].
    split; [intros m -> Hne; by rewrite Hm|].
    split; [by intros ->|]. by intros t ->.
  - destruct (gemini_run Number_toString network messages options s _ Hget Ht)
      as (geminiMessages & _ & Hrq & _).
    eexists _, _. split; [exact Hrq|]. simpl.
    split; [done|].
    split; [by intros [-> | ->]|].
    split; [intros m -> Hne; by rewrite Hm|].
    split; [by intros ->|]. by intros t ->.
Qed.

Lemma request_defaults_witness :
  "sk-1" <> ""
  /\ (OpenAIService.getApiKey (OpenAIService.setApiKey "sk-1" freshState).2).1
     = Normal (Some "sk-1")
  /\ exists rq : Request,
       requests (OpenAIService.createChatCompletion sample_Number_toString
                   (answering (Abrupt (TypeError "Failed to fetch")))
                   [ {| role := user; content := "Hi" |} ]
                   {| model := Some "gpt-4o"; temperature := Some 0%float;
                      max_tokens := None |}
                   (OpenAIService.setApiKey "sk-1" freshState).2).2 = [rq]
       /\ field "model" (body rq) = Some (VString "gpt-4o")
       /\ field "temperature" (body rq) = Some (VNumber 0%float).
Proof.
  assert (Hk : "sk-1" <> "") by discriminate.
  assert (Hget : (OpenAIService.getApiKey (OpenAIService.setApiKey "sk-1" freshState).2).1
                 = Normal (Some "sk-1")) by (vm_compute; reflexivity).
  split; [exact Hk|]. split; [exact Hget|].
  destruct (proj1 (request_defaults sample_Number_toString
                     (answering (Abrupt (TypeError "Failed to fetch")))
                     [ {| role := user; content := "Hi" |} ]
                     {| model := Some "gpt-4o"; temperature := Some 0%float;
                        max_tokens := None |}
                     (OpenAIService.setApiKey "sk-1" freshState).2 "sk-1" Hk) Hget)
    as (rq & Hrq & _ & Hmodel & _ & Htemp).
  exists rq. split; [exact Hrq|]. split.
  - apply Hmodel; [reflexivity | discriminate].
  - apply Htemp. reflexivity.
Defined.

(** C8 as stated fails for the model: with [options.model] set to the
    empty string, the request still names the default model. The body of
    Provider-B's request has no model at all; its model is in the URL. *)
Lemma request_model_empty_string :
  let options := {| model := Some ""; temperature := None; max_tokens := None |} in
  let openai :=
    OpenAIService.createChatCompletion sample_Number_toString
      (answering (Abrupt (TypeError "Failed to fetch")))
      [ {| role := user; content := "Hi" |} ] options
      (OpenAIService.setApiKey "sk-1" freshState).2 in
  let gemini :=
    GeminiService.createChatCompletion sample_Number_toString
      (answering (Abrupt (TypeError "Failed to fetch")))
      [ {| role := user; content := "Hi" |} ] options
      (GeminiService.setApiKey "AIza" freshState).2 in
  model options <> None
  /\ (exists rq : Request,
        requests openai.2 = [rq]
        /\ field "model" (body rq) = Some (VString "gpt-4o-mini")
        /\ field "model" (body rq) <> Some (VString ""))
  /\ (exists rq : Request,
        requests gemini.2 = [rq]
        /\ field "model" (body rq) = None
        /\ url rq = GeminiService.baseUrl
                    +:+ "/models/gemini-pro:generateContent?key=AIza").
Proof.
  cbv zeta. split; [discriminate|]. split.
  - eexists. split; [vm_compute; reflexivity|].
    split; [reflexivity | discriminate].
  - eexists. split; [vm_compute; reflexivity|].
    split; reflexivity.
Qed.

(** * Further properties of the code *)

(** ** The credential store, both classes *)

Lemma getApiKey_result (this : Service) (k : string) (s : State) :
  (CredentialStore.getApiKey this k s).1
  = Normal (if truthy_string (apiKey this s) then apiKey this s
            else if truthy_string (localStorage s !! k) then localStorage s !! k
                 else apiKey this s).
Proof.
  destruct (truthy_string (apiKey this s)) eqn:Hc.
  - by rewrite getApiKey_cached.
  - destruct (truthy_string (localStorage s !! k)) eqn:Hs.
    + by rewrite getApiKey_read_through.
    + by rewrite getApiKey_unset.
Qed.

Lemma getApiKey_state (this : Service) (k : string) (s : State) :
  exists r, CredentialStore.getApiKey this k s = (Normal r, with_apiKey this r s).
Proof.
  destruct (truthy_string (apiKey this s)) eqn:Hc.
  - rewrite getApiKey_cached by done. exists (apiKey this s).
    by rewrite with_apiKey_same.
  - destruct (truthy_string (localStorage s !! k)) eqn:Hs.
    + rewrite getApiKey_read_through by done. eauto.
    + rewrite getApiKey_unset by done. exists (apiKey this s).
      by rewrite with_apiKey_same.
Qed.

Lemma getApiKey_localStorage (this : Service) (k : string) (s : State) :
  localStorage (CredentialStore.getApiKey this k s).2 = localStorage s.
Proof.
  destruct (getApiKey_state this k s) as (r & ->). cbn [snd].
  apply localStorage_with_apiKey.
Qed.


(** The store of [OpenAIService]: [setApiKey(X)] returns [true] and writes
    [X] under "openai_api_key"; [getApiKey()] then returns [X]; after a page
    load it still does when [X] is not the empty string, and returns [null]
    when it is. *)
Theorem openai_key_round_trip (X : string) (s : State) :
  let s1 := (OpenAIService.setApiKey X s).2 in
  (OpenAIService.setApiKey X s).1 = Normal true
  /\ localStorage s1 !! "openai_api_key" = Some X
  /\ (OpenAIService.getApiKey s1).1 = Normal (Some X)
  /\ (X <> "" -> (OpenAIService.getApiKey (reload s1)).1 = Normal (Some X))
  /\ (X = "" -> (OpenAIService.getApiKey (reload s1)).1 = Normal None).
Proof.
  cbv zeta. unfold OpenAIService.getApiKey, OpenAIService.setApiKey.
  split; [by rewrite setApiKey_run|].
  split; [apply (stored_after_set openaiService OpenAIService.storageKey)|].
  split; [by rewrite set_then_get|].
  split.
  - intros HX. by rewrite set_reload_get.
  - intros ->. by rewrite set_empty_reload_get.
Qed.

Lemma openai_key_round_trip_witness :
  "sk-1" <> ""
  /\ (OpenAIService.getApiKey (reload (OpenAIService.setApiKey "sk-1" freshState).2)).1
     = Normal (Some "sk-1").
Proof.
  split; [discriminate|].
  apply (openai_key_round_trip "sk-1" freshState). discriminate.
Defined.


(** How the operations of one store compose: a second [setApiKey] leaves
    no trace of the first, [clearApiKey] undoes any [setApiKey], and
    [clearApiKey] twice is [clearApiKey] once. *)
Theorem store_composition (this : Service) (k X Y : string) (s : State) :
  (CredentialStore.setApiKey this k Y (CredentialStore.setApiKey this k X s).2).2
  = (CredentialStore.setApiKey this k Y s).2
  /\ (CredentialStore.clearApiKey this k (CredentialStore.setApiKey this k X s).2).2
     = (CredentialStore.clearApiKey this k s).2
  /\ (CredentialStore.clearApiKey this k (CredentialStore.clearApiKey this k s).2).2
     = (CredentialStore.clearApiKey this k s).2
  /\ (CredentialStore.getApiKey this k
        (CredentialStore.setApiKey this k Y (CredentialStore.setApiKey this k X s).2).2).1
     = Normal (Some Y).
Proof.
  rewrite set_then_get, !setApiKey_run, !clearApiKey_run. cbn [fst snd].
  destruct this, s; unfold with_localStorage, with_apiKey; cbn;
    rewrite ?insert_insert_eq, ?delete_insert_eq, ?delete_delete_eq; done.
Qed.

(** [getApiKey()] settles at once: a second call returns the same key and
    changes nothing; and no call writes [localStorage], shows a toast, sends
    a request or logs. *)
Theorem getApiKey_idempotent (this : Service) (k : string) (s : State) :
  CredentialStore.getApiKey this k (CredentialStore.getApiKey this k s).2
  = CredentialStore.getApiKey this k s
  /\ localStorage (CredentialStore.getApiKey this k s).2 = localStorage s
  /\ toasts (CredentialStore.getApiKey this k s).2 = toasts s
  /\ requests (CredentialStore.getApiKey this k s).2 = requests s
  /\ console (CredentialStore.getApiKey this k s).2 = console s.
Proof.
  destruct (getApiKey_total this k s) as (r & s' & E & _ & Ht & Hq & Hc & Hl).
  rewrite E. cbn [fst snd]. split; [|done].
  destruct (truthy_string (apiKey this s)) eqn:Hcache.
  - rewrite getApiKey_cached in E by done. injection E as <- <-.
    by apply getApiKey_cached.
  - destruct (truthy_string (localStorage s !! k)) eqn:Hs.
    + rewrite getApiKey_read_through in E by done. injection E as <- <-.
      rewrite getApiKey_cached; autorewrite with world; done.
    + rewrite getApiKey_unset in E by done. injection E as <- <-.
      by apply getApiKey_unset.
Qed.

(** ** What a call leaves behind *)

Lemma sent_frame (this : Service) (rq : Request) (s : State) :
  apiKey this (sent rq s) = apiKey this s
  /\ localStorage (sent rq s) = localStorage s
  /\ toasts (sent rq s) = toasts s
  /\ console (sent rq s) = console s
  /\ requests (sent rq s) = requests s ++ [rq].
Proof. by destruct this. Qed.

Lemma reported_frame (this : Service) (failedToast : JsError -> Toast)
    (label : string) (e : JsError) (s : State) :
  apiKey this (reported failedToast label e s) = apiKey this s
  /\ localStorage (reported failedToast label e s) = localStorage s
  /\ toasts (reported failedToast label e s) = toasts s ++ [failedToast e]
  /\ console (reported failedToast label e s) = console s ++ [(label, e)]
  /\ requests (reported failedToast label e s) = requests s.
Proof. by destruct this. Qed.

Lemma with_toasts_frame (this : Service) (ts : list Toast) (s : State) :
  apiKey this (with_toasts ts s) = apiKey this s.
Proof. by destruct this. Qed.

Section Frame.
Variable Number_toString : float -> string.
Variable network : Request -> Completion Response.

(** Relative to the world [getApiKey()] leaves, a call only appends to the
    three logs, at most one entry each. *)
Lemma openai_frame (messages : list ChatMessage) (options : Options) (s : State) :
  let out := OpenAIService.createChatCompletion Number_toString network
               messages options s in
  localStorage out.2 = localStorage s
  /\ (forall this, apiKey this out.2 = apiKey this (OpenAIService.getApiKey s).2)
  /\ exists (sentNow : list Request) (shown : list Toast)
            (logged : list (string * JsError)),
       requests out.2 = requests s ++ sentNow
       /\ toasts out.2 = toasts s ++ shown
       /\ console out.2 = console s ++ logged
       /\ length sentNow <= 1 /\ length shown <= 1 /\ length logged <= 1
       /\ (length sentNow = 1 <-> truthy_string (apiKey openaiService out.2) = true).
Proof.
  cbv zeta.
  destruct (getApiKey_total openaiService OpenAIService.storageKey s)
    as (r & s1 & E & Hs & Ht & Hq & Hc & Hl).
  destruct (getApiKey_state openaiService OpenAIService.storageKey s) as (r' & E').
  fold OpenAIService.getApiKey in E, E'. rewrite E in E'.
  injection E' as <- Hs1. rewrite E. cbn [snd].
  assert (Hr : apiKey openaiService s1 = r) by (rewrite Hs1; reflexivity).
  destruct (truthy_string r) eqn:Htr.
  - rewrite (openai_with_key _ _ _ _ _ _ _ E Htr). cbv zeta.
    destruct (openai_outcome _ _) as [v|e]; cbn [fst snd]; unfold reported, sent; cbn;
      rewrite ?Ht, ?Hq, ?Hc, ?Hl.
    + split; [done|]. split; [by intros []|].
      eexists [_], [], []. rewrite !app_nil_r. change (openai_apiKey s1) with (apiKey openaiService s1).
      change (gemini_apiKey s1) with (apiKey geminiService s1).
      rewrite Hr. simpl. repeat split; try done; lia.
    + split; [done|]. split; [by intros []|].
      eexists [_], [_], [_]. change (openai_apiKey s1) with (apiKey openaiService s1).
      change (gemini_apiKey s1) with (apiKey geminiService s1).
      rewrite Hr. simpl. repeat split; try done; lia.
  - rewrite (openai_without_key _ _ _ _ _ r); [| by rewrite E | done].
    cbn [fst snd]. rewrite <- (Hs eq_refl).
    split; [done|]. split; [by intros []|].
    exists [], [OpenAIService.missingToast], [].
    rewrite !app_nil_r. cbn. change (openai_apiKey s1) with (apiKey openaiService s1).
    change (gemini_apiKey s1) with (apiKey geminiService s1).
    rewrite Hr. simpl. repeat split; try done; try lia; try congruence.
Qed.

Lemma gemini_frame (messages : list ChatMessage) (options : Options) (s : State) :
  let out := GeminiService.createChatCompletion Number_toString network
               messages options s in
  localStorage out.2 = localStorage s
  /\ (forall this, apiKey this out.2 = apiKey this (GeminiService.getApiKey s).2)
  /\ exists (sentNow : list Request) (shown : list Toast)
            (logged : list (string * JsError)),
       requests out.2 = requests s ++ sentNow
       /\ toasts out.2 = toasts s ++ shown
       /\ console out.2 = console s ++ logged
       /\ length sentNow <= 1 /\ length shown <= 1 /\ length logged <= 1
       /\ (length sentNow = 1 <-> truthy_string (apiKey geminiService out.2) = true).
Proof.
  cbv zeta.
  destruct (getApiKey_total geminiService GeminiService.storageKey s)
    as (r & s1 & E & Hs & Ht & Hq & Hc & Hl).
  destruct (getApiKey_state geminiService GeminiService.storageKey s) as (r' & E').
  fold GeminiService.getApiKey in E, E'. rewrite E in E'.
  injection E' as <- Hs1. rewrite E. cbn [snd].
  assert (Hr : apiKey geminiService s1 = r) by (rewrite Hs1; reflexivity).
  destruct (contents_total messages) as [geminiMessages Hcont].
  destruct (truthy_string r) eqn:Htr.
  - rewrite (gemini_with_key _ _ _ _ _ _ _ _ E Htr Hcont). cbv zeta.
    destruct (gemini_outcome _ _) as [v|e]; cbn [fst snd]; unfold reported, sent; cbn;
      rewrite ?Ht, ?Hq, ?Hc, ?Hl.
    + split; [done|]. split; [by intros []|].
      eexists [_], [], []. rewrite !app_nil_r. change (openai_apiKey s1) with (apiKey openaiService s1).
      change (gemini_apiKey s1) with (apiKey geminiService s1).
      rewrite Hr. simpl. repeat split; try done; lia.
    + split; [done|]. split; [by intros []|].
      eexists [_], [_], [_]. change (openai_apiKey s1) with (apiKey openaiService s1).
      change (gemini_apiKey s1) with (apiKey geminiService s1).
      rewrite Hr. simpl. repeat split; try done; lia.
  - rewrite (gemini_without_key _ _ _ _ _ r); [| by rewrite E | done].
    cbn [fst snd]. rewrite <- (Hs eq_refl).
    split; [done|]. split; [by intros []|].
    exists [], [GeminiService.missingToast], [].
    rewrite !app_nil_r. cbn. change (openai_apiKey s1) with (apiKey openaiService s1).
    change (gemini_apiKey s1) with (apiKey geminiService s1).
    rewrite Hr. simpl. repeat split; try done; try lia; try congruence.
Qed.

End Frame.

Lemma getApiKey_other (this other : Service) (k : string) (s : State) :
  this <> other ->
  apiKey other (CredentialStore.getApiKey this k s).2 = apiKey other s.
Proof.
  intros Hne. destruct (getApiKey_state this k s) as (r & ->). cbn [snd].
  by apply apiKey_with_apiKey_other.
Qed.

Lemma getApiKey_truthy (this : Service) (k : string) (s : State) :
  truthy_string (apiKey this (CredentialStore.getApiKey this k s).2) = true
  <-> exists key, (CredentialStore.getApiKey this k s).1 = Normal (Some key) /\ key <> "".
Proof.
  destruct (getApiKey_state this k s) as (r & ->). cbn [fst snd].
  rewrite apiKey_with_apiKey, truthy_string_Some.
  split.
  - intros (key & -> & Hne). eauto.
  - intros (key & [= ->] & Hne). eauto.
Qed.

(** A call of [createChatCompletion], on either service and whatever the
    network does, never writes [localStorage] and never touches the other
    service's key; it adds at most one request, one toast and one console
    line to what was there, and it sends a request exactly when [getApiKey()]
    resolves to a non-empty key. *)
Theorem createChatCompletion_frame
    (Number_toString : float -> string) (network : Request -> Completion Response)
    (messages : list ChatMessage) (options : Options) (s : State) :
  (let out := OpenAIService.createChatCompletion Number_toString network
                messages options s in
   localStorage out.2 = localStorage s
   /\ apiKey geminiService out.2 = apiKey geminiService s
   /\ exists (sentNow : list Request) (shown : list Toast)
             (logged : list (string * JsError)),
        requests out.2 = requests s ++ sentNow
        /\ toasts out.2 = toasts s ++ shown
        /\ console out.2 = console s ++ logged
        /\ length sentNow <= 1 /\ length shown <= 1 /\ length logged <= 1
        /\ (length sentNow = 1
            <-> exists key, (OpenAIService.getApiKey s).1 = Normal (Some key)
                            /\ key <> ""))
  /\
  (let out := GeminiService.createChatCompletion Number_toString network
                messages options s in
   localStorage out.2 = localStorage s
   /\ apiKey openaiService out.2 = apiKey openaiService s
   /\ exists (sentNow : list Request) (shown : list Toast)
             (logged : list (string * JsError)),
        requests out.2 = requests s ++ sentNow
        /\ toasts out.2 = toasts s ++ shown
        /\ console out.2 = console s ++ logged
        /\ length sentNow <= 1 /\ length shown <= 1 /\ length logged <= 1
        /\ (length sentNow = 1
            <-> exists key, (GeminiService.getApiKey s).1 = Normal (Some key)
                            /\ key <> "")).
Proof.
  split; cbv zeta.
  - destruct (openai_frame Number_toString network messages options s)
      as (Hl & Hk & sentNow & shown & logged & Hq & Ht & Hc & H1 & H2 & H3 & Hiff).
    split; [done|]. split.
    { rewrite Hk. by apply getApiKey_other. }
    exists sentNow, shown, logged. repeat (split; [done|]).
    rewrite Hiff, Hk. apply getApiKey_truthy.
  - destruct (gemini_frame Number_toString network messages options s)
      as (Hl & Hk & sentNow & shown & logged & Hq & Ht & Hc & H1 & H2 & H3 & Hiff).
    split; [done|]. split.
    { rewrite Hk. by apply getApiKey_other. }
    exists sentNow, shown, logged. repeat (split; [done|]).
    rewrite Hiff, Hk. apply getApiKey_truthy.
Qed.

(** ** The cache shadows the store *)

Lemma coherent_ext (this : Service) (k : string) (s s' : State) :
  apiKey this s' = apiKey this s ->
  localStorage s' !! k = localStorage s !! k ->
  coherent this k s -> coherent this k s'.
Proof. unfold coherent. intros -> ->. done. Qed.

Lemma coherent_getApiKey (this other : Service) (k k' : string) (s : State) :
  (this = other -> k = k') ->
  coherent other k' s -> coherent other k' (CredentialStore.getApiKey this k s).2.
Proof.
  intros Hk Hco. destruct (decide (this = other)) as [<- | Hne].
  - rewrite <- (Hk eq_refl) in *. unfold coherent in *.
    destruct (truthy_string (apiKey this s)) eqn:Hc.
    + by rewrite getApiKey_cached.
    + destruct (truthy_string (localStorage s !! k)) eqn:Hs.
      * rewrite getApiKey_read_through by done. cbn [snd].
        autorewrite with world. by right.
      * by rewrite getApiKey_unset.
  - apply (coherent_ext other k' s); [|by rewrite getApiKey_localStorage|done].
    by apply getApiKey_other.
Qed.

Lemma coherent_setApiKey (this other : Service) (k k' X : string) (s : State) :
  (this = other <-> k = k') ->
  coherent other k' s -> coherent other k' (CredentialStore.setApiKey this k X s).2.
Proof.
  intros Hk Hco. rewrite setApiKey_run. cbn [snd]. unfold coherent in *.
  cbn [localStorage with_localStorage]. autorewrite with world.
  destruct (decide (this = other)) as [<- | Hne].
  - rewrite <- (proj1 Hk eq_refl). autorewrite with world.
    right. by rewrite lookup_insert_eq.
  - rewrite apiKey_with_apiKey_other by done.
    rewrite lookup_insert_ne; [done|]. intros Heq. by apply Hne, Hk.
Qed.

Lemma coherent_clearApiKey (this other : Service) (k k' : string) (s : State) :
  (this = other <-> k = k') ->
  coherent other k' s -> coherent other k' (CredentialStore.clearApiKey this k s).2.
Proof.
  intros Hk Hco. rewrite clearApiKey_run. cbn [snd]. unfold coherent in *.
  cbn [localStorage with_localStorage]. autorewrite with world.
  destruct (decide (this = other)) as [<- | Hne].
  - autorewrite with world. by left.
  - rewrite apiKey_with_apiKey_other by done.
    rewrite lookup_delete_ne; [done|]. intros Heq. by apply Hne, Hk.
Qed.

Lemma service_keys (this other : Service) :
  let key t := match t with
               | openaiService => OpenAIService.storageKey
               | geminiService => GeminiService.storageKey
               end in
  this = other <-> key this = key other.
Proof. destruct this, other; cbn; split; intros; done. Qed.

(** The cache invariant: in a world where each instance's cache is empty
    or holds what [localStorage] holds under its key (such as the world of a
    first visit), it stays so after any operation of either service and
    after a page load. *)
Theorem coherent_world_preserved
    (Number_toString : float -> string) (network : Request -> Completion Response)
    (messages : list ChatMessage) (options : Options) (X : string) (s : State) :
  coherent_world s ->
  coherent_world (reload s)
  /\ coherent_world (OpenAIService.setApiKey X s).2
  /\ coherent_world (OpenAIService.getApiKey s).2
  /\ coherent_world (OpenAIService.clearApiKey s).2
  /\ coherent_world (OpenAIService.createChatCompletion Number_toString network
                       messages options s).2
  /\ coherent_world (GeminiService.setApiKey X s).2
  /\ coherent_world (GeminiService.getApiKey s).2
  /\ coherent_world (GeminiService.clearApiKey s).2
  /\ coherent_world (GeminiService.createChatCompletion Number_toString network
                       messages options s).2.
Proof.
  intros [Ho Hg].
  pose proof (service_keys openaiService geminiService) as Hog.
  pose proof (service_keys geminiService openaiService) as Hgo.
  pose proof (service_keys openaiService openaiService) as Hoo.
  pose proof (service_keys geminiService geminiService) as Hgg.
  cbv zeta in Hog, Hgo, Hoo, Hgg.
  assert (Hgeto : coherent_world (OpenAIService.getApiKey s).2).
  { split; by apply coherent_getApiKey. }
  assert (Hgetg : coherent_world (GeminiService.getApiKey s).2).
  { split; by apply coherent_getApiKey. }
  split.
  { split; left; apply apiKey_reload. }
  split; [split; by apply coherent_setApiKey|].
  split; [done|].
  split; [split; by apply coherent_clearApiKey|].
  split.
  { destruct (openai_frame Number_toString network messages options s)
      as (Hl & Hk & _).
    destruct Hgeto as [Ho' Hg'].
    pose proof (getApiKey_localStorage openaiService OpenAIService.storageKey s)
      as Hl'.
    fold OpenAIService.getApiKey in Hl'.
    split; [eapply coherent_ext; [apply Hk | | exact Ho']
           | eapply coherent_ext; [apply Hk | | exact Hg']]; by rewrite Hl, Hl'. }
  split; [split; by apply coherent_setApiKey|].
  split; [done|].
  split; [split; by apply coherent_clearApiKey|].
  destruct (gemini_frame Number_toString network messages options s)
    as (Hl & Hk & _).
  destruct Hgetg as [Ho' Hg'].
  pose proof (getApiKey_localStorage geminiService GeminiService.storageKey s)
    as Hl'.
  fold GeminiService.getApiKey in Hl'.
  split; [eapply coherent_ext; [apply Hk | | exact Ho']
         | eapply coherent_ext; [apply Hk | | exact Hg']]; by rewrite Hl, Hl'.
Qed.

Lemma coherent_world_preserved_witness :
  coherent_world freshState
  /\ coherent_world (GeminiService.setApiKey "AIza" freshState).2.
Proof.
  assert (H : coherent_world freshState) by (split; left; reflexivity).
  split; [exact H|].
  apply (coherent_world_preserved sample_Number_toString
           (answering (Abrupt (TypeError "Failed to fetch"))) [] no_options
           "AIza" freshState H).
Defined.

(** ** Failures and what the user is told *)

Lemma new_Error_string (Number_toString : float -> string) (m fallback : string) :
  m <> "" -> new_Error Number_toString (VString m) fallback = Normal (Error m).
Proof.
  intros Hm. unfold new_Error. simpl.
  destruct (String.eqb_spec m ""); [done|]. reflexivity.
Qed.

Lemma new_Error_fallback (Number_toString : float -> string) (given : value)
    (fallback : string) :
  truthy given = false ->
  new_Error Number_toString given fallback = Normal (Error fallback).
Proof. intros Hg. unfold new_Error. by rewrite Hg. Qed.

Lemma error_message_given (props eprops : list (string * value)) (m : value) :
  own_property "error" props = Some (VObject eprops) ->
  own_property "message" eprops = Some m ->
  error_message (VObject props) = Normal m.
Proof.
  intros He Hm. unfold error_message. js_unfold. simpl.
  rewrite He. simpl. by rewrite Hm.
Qed.

Lemma error_message_nothing (props : list (string * value)) :
  no_error_message props ->
  exists given, error_message (VObject props) = Normal given /\ truthy given = false.
Proof.
  unfold error_message. js_unfold. simpl.
  intros [He | [He | (eprops & He & [Hm | [Hm | Hm]])]]; rewrite He; simpl;
    rewrite ?Hm; simpl; eauto.
Qed.

Section Failures.
Variable Number_toString : float -> string.
Variable network : Request -> Completion Response.
Variables (messages : list ChatMessage) (options : Options) (s : State) (k : string).
Hypothesis key_set : k <> "".

Lemma openai_failure (e : JsError) :
  (OpenAIService.getApiKey s).1 = Normal (Some k) ->
  openai_outcome Number_toString
    (network (OpenAIService.request (Some k) messages options)) = Abrupt e ->
  let out := OpenAIService.createChatCompletion Number_toString network
               messages options s in
  out.1 = Normal VNull
  /\ toasts out.2 = toasts s ++ [OpenAIService.failedToast e]
  /\ console out.2 = console s ++ [("OpenAI API Error:", e)]
  /\ requests out.2 = requests s ++ [OpenAIService.request (Some k) messages options].
Proof using key_set.
  intros Hget Hout. cbv zeta.
  assert (Ht : truthy_string (Some k) = true) by (apply truthy_string_Some; eauto).
  destruct (openai_run Number_toString network messages options s _ Hget Ht)
    as (Hrq & _ & H). rewrite Hout in H. destruct H as (? & ? & ?). done.
Qed.

Lemma gemini_failure (geminiMessages : list GeminiMessage) (e : JsError) :
  (GeminiService.getApiKey s).1 = Normal (Some k) ->
  GeminiService.contents messages = Normal geminiMessages ->
  gemini_outcome Number_toString
    (network (GeminiService.request (Some k) geminiMessages options)) = Abrupt e ->
  let out := GeminiService.createChatCompletion Number_toString network
               messages options s in
  out.1 = Normal VNull
  /\ toasts out.2 = toasts s ++ [GeminiService.failedToast e]
  /\ console out.2 = console s ++ [("Gemini API Error:", e)]
  /\ requests out.2
     = requests s ++ [GeminiService.request (Some k) geminiMessages options].
Proof using key_set.
  intros Hget Hcont Hout. cbv zeta.
  assert (Ht : truthy_string (Some k) = true) by (apply truthy_string_Some; eauto).
  destruct (gemini_run Number_toString network messages options s _ Hget Ht)
    as (gm & Hcont' & Hrq & _ & H).
  rewrite Hcont in Hcont'. injection Hcont' as <-.
  rewrite Hout in H. destruct H as (? & ? & ?). done.
Qed.
End Failures.

(** On a non-2xx response whose body is [{error: {message: m}}] with [m] a
    non-empty string, the call returns [null], the toast "AI Request Failed"
    shows [m] itself, and the console gets an [Error] with that message. Both
    services. *)
Theorem provider_message_shown
    (Number_toString : float -> string) (network : Request -> Completion Response)
    (messages : list ChatMessage) (options : Options) (s : State) (k m : string)
    (geminiMessages : list GeminiMessage) (response : Response)
    (props eprops : list (string * value)) :
  k <> "" ->
  ok response = false ->
  json response = Normal (VObject props) ->
  own_property "error" props = Some (VObject eprops) ->
  own_property "message" eprops = Some (VString m) ->
  m <> "" ->
  ((OpenAIService.getApiKey s).1 = Normal (Some k) ->
   network (OpenAIService.request (Some k) messages options) = Normal response ->
   let out := OpenAIService.createChatCompletion Number_toString network
                messages options s in
   out.1 = Normal VNull
   /\ toasts out.2
      = toasts s ++ [ {| title := "AI Request Failed"; description := m;
                         variant := Some "destructive" |} ]
   /\ console out.2 = console s ++ [("OpenAI API Error:", Error m)])
  /\
  ((GeminiService.getApiKey s).1 = Normal (Some k) ->
   GeminiService.contents messages = Normal geminiMessages ->
   network (GeminiService.request (Some k) geminiMessages options) = Normal response ->
   let out := GeminiService.createChatCompletion Number_toString network
                messages options s in
   out.1 = Normal VNull
   /\ toasts out.2
      = toasts s ++ [ {| title := "AI Request Failed"; description := m;
                         variant := Some "destructive" |} ]
   /\ console out.2 = console s ++ [("Gemini API Error:", Error m)]).
Proof.
  intros Hk Hok Hjson He Hm Hne.
  assert (Hdesc : failure_description (Error m) = m).
  { unfold failure_description. simpl. by destruct (String.eqb_spec m ""). }
  split.
  - intros Hget Hnet. cbv zeta.
    destruct (openai_failure Number_toString network messages options s k Hk
                (Error m) Hget) as (H1 & H2 & H3 & _).
    { rewrite Hnet. unfold openai_outcome. js_unfold. rewrite Hok, Hjson. simpl.
      rewrite (error_message_given _ _ _ He Hm).
      by rewrite new_Error_string. }
    rewrite H1, H2, H3. unfold OpenAIService.failedToast. by rewrite Hdesc.
  - intros Hget Hcont Hnet. cbv zeta.
    destruct (gemini_failure Number_toString network messages options s k Hk
                geminiMessages (Error m) Hget Hcont) as (H1 & H2 & H3 & _).
    { rewrite Hnet. unfold gemini_outcome. js_unfold. rewrite Hok, Hjson. simpl.
      rewrite (error_message_given _ _ _ He Hm).
      by rewrite new_Error_string. }
    rewrite H1, H2, H3. unfold GeminiService.failedToast. by rewrite Hdesc.
Qed.

(** On a non-2xx response whose JSON body has no [error], a [null] one, or
    an [error] without a non-empty [message], the toast falls back to
    "Failed to connect to OpenAI API" (resp. "... Gemini API"), and the call
    returns [null]. *)
Theorem provider_message_fallback
    (Number_toString : float -> string) (network : Request -> Completion Response)
    (messages : list ChatMessage) (options : Options) (s : State) (k : string)
    (geminiMessages : list GeminiMessage) (response : Response)
    (props : list (string * value)) :
  k <> "" ->
  ok response = false ->
  json response = Normal (VObject props) ->
  no_error_message props ->
  ((OpenAIService.getApiKey s).1 = Normal (Some k) ->
   network (OpenAIService.request (Some k) messages options) = Normal response ->
   let out := OpenAIService.createChatCompletion Number_toString network
                messages options s in
   out.1 = Normal VNull
   /\ toasts out.2
      = toasts s ++ [ {| title := "AI Request Failed";
                         description := "Failed to connect to OpenAI API";
                         variant := Some "destructive" |} ])
  /\
  ((GeminiService.getApiKey s).1 = Normal (Some k) ->
   GeminiService.contents messages = Normal geminiMessages ->
   network (GeminiService.request (Some k) geminiMessages options) = Normal response ->
   let out := GeminiService.createChatCompletion Number_toString network
                messages options s in
   out.1 = Normal VNull
   /\ toasts out.2
      = toasts s ++ [ {| title := "AI Request Failed";
                         description := "Failed to connect to Gemini API";
                         variant := Some "destructive" |} ]).
Proof.
  intros Hk Hok Hjson Hno.
  destruct (error_message_nothing props Hno) as (given & Hgiven & Hfalsy).
  split.
  - intros Hget Hnet. cbv zeta.
    destruct (openai_failure Number_toString network messages options s k Hk
                (Error "Failed to connect to OpenAI API") Hget) as (H1 & H2 & _).
    { rewrite Hnet. unfold openai_outcome. js_unfold. rewrite Hok, Hjson. simpl.
      rewrite Hgiven. by rewrite new_Error_fallback. }
    by rewrite H1, H2.
  - intros Hget Hcont Hnet. cbv zeta.
    destruct (gemini_failure Number_toString network messages options s k Hk
                geminiMessages (Error "Failed to connect to Gemini API") Hget Hcont)
      as (H1 & H2 & _).
    { rewrite Hnet. unfold gemini_outcome. js_unfold. rewrite Hok, Hjson. simpl.
      rewrite Hgiven. by rewrite new_Error_fallback. }
    by rewrite H1, H2.
Qed.

Lemma provider_message_shown_witness :
  description
    <$> last (toasts
          (OpenAIService.createChatCompletion sample_Number_toString
             (answering
                (Normal {| ok := false;
                           json := Normal
                             (VObject [("error",
                                        VObject [("message",
                                                  VString "Quota exceeded")])]) |}))
             [ {| role := user; content := "Hi" |} ] no_options
             (OpenAIService.setApiKey "sk-1" freshState).2).2)
  = Some "Quota exceeded".
Proof.
  destruct (proj1 (provider_message_shown sample_Number_toString
              (answering
                 (Normal {| ok := false;
                            json := Normal
                              (VObject [("error",
                                         VObject [("message",
                                                   VString "Quota exceeded")])]) |}))
              [ {| role := user; content := "Hi" |} ] no_options
              (OpenAIService.setApiKey "sk-1" freshState).2 "sk-1" "Quota exceeded"
              []
              {| ok := false;
                 json := Normal
                   (VObject [("error",
                              VObject [("message", VString "Quota exceeded")])]) |}
              [("error", VObject [("message", VString "Quota exceeded")])]
              [("message", VString "Quota exceeded")]
              ltac:(discriminate) eq_refl eq_refl eq_refl eq_refl ltac:(discriminate))
            ltac:(vm_compute; reflexivity) eq_refl)
    as (_ & -> & _).
  by rewrite last_snoc.
Defined.

Lemma provider_message_fallback_witness :
  description
    <$> last (toasts
          (GeminiService.createChatCompletion sample_Number_toString
             (answering (Normal {| ok := false; json := Normal (VObject []) |}))
             [ {| role := user; content := "Hi" |} ] no_options
             (GeminiService.setApiKey "AIza" freshState).2).2)
  = Some "Failed to connect to Gemini API".
Proof.
  destruct (proj2 (provider_message_fallback sample_Number_toString
              (answering (Normal {| ok := false; json := Normal (VObject []) |}))
              [ {| role := user; content := "Hi" |} ] no_options
              (GeminiService.setApiKey "AIza" freshState).2 "AIza"
              [ {| gemini_role := gemini_user; parts := [ {| text := "Hi" |} ] |} ]
              {| ok := false; json := Normal (VObject []) |} []
              ltac:(discriminate) eq_refl eq_refl ltac:(by left))
            ltac:(vm_compute; reflexivity) eq_refl eq_refl)
    as (_ & ->).
  by rewrite last_snoc.
Defined.

(** When [fetch] rejects, or [response.json()] rejects (the body is not
    JSON), the call returns [null] after one request; the toast
    "AI Request Failed" shows the error's message, or "Something went wrong"
    when that message is empty, and the console gets the error. Both
    services. *)
Theorem rejection_reported
    (Number_toString : float -> string) (network : Request -> Completion Response)
    (messages : list ChatMessage) (options : Options) (s : State) (k : string)
    (geminiMessages : list GeminiMessage) (e : JsError) :
  k <> "" ->
  let rejected (reply : Completion Response) :=
    reply = Abrupt e
    \/ exists response, reply = Normal response /\ json response = Abrupt e in
  let shown :=
    {| title := "AI Request Failed";
       description := if decide (message e = "") then "Something went wrong"
                      else message e;
       variant := Some "destructive" |} in
  ((OpenAIService.getApiKey s).1 = Normal (Some k) ->
   rejected (network (OpenAIService.request (Some k) messages options)) ->
   let out := OpenAIService.createChatCompletion Number_toString network
                messages options s in
   out.1 = Normal VNull
   /\ toasts out.2 = toasts s ++ [shown]
   /\ console out.2 = console s ++ [("OpenAI API Error:", e)]
   /\ requests out.2 = requests s ++ [OpenAIService.request (Some k) messages options])
  /\
  ((GeminiService.getApiKey s).1 = Normal (Some k) ->
   GeminiService.contents messages = Normal geminiMessages ->
   rejected (network (GeminiService.request (Some k) geminiMessages options)) ->
   let out := GeminiService.createChatCompletion Number_toString network
                messages options s in
   out.1 = Normal VNull
   /\ toasts out.2 = toasts s ++ [shown]
   /\ console out.2 = console s ++ [("Gemini API Error:", e)]
   /\ requests out.2
      = requests s ++ [GeminiService.request (Some k) geminiMessages options]).
Proof.
  intros Hk. cbv zeta.
  assert (Hdesc : failure_description e
                  = if decide (message e = "") then "Something went wrong"
                    else message e).
  { unfold failure_description.
    destruct (String.eqb_spec (message e) ""), (decide (message e = "")); done. }
  split.
  - intros Hget Hrej.
    destruct (openai_failure Number_toString network messages options s k Hk
                e Hget) as (H1 & H2 & H3 & H4).
    { unfold openai_outcome. js_unfold.
      destruct Hrej as [-> | (response & -> & Hj)]; [done|].
      rewrite Hj. by destruct (ok response). }
    rewrite H1, H2, H3, H4. unfold OpenAIService.failedToast. by rewrite Hdesc.
  - intros Hget Hcont Hrej.
    destruct (gemini_failure Number_toString network messages options s k Hk
                geminiMessages e Hget Hcont) as (H1 & H2 & H3 & H4).
    { unfold gemini_outcome. js_unfold.
      destruct Hrej as [-> | (response & -> & Hj)]; [done|].
      rewrite Hj. by destruct (ok response). }
    rewrite H1, H2, H3, H4. unfold GeminiService.failedToast. by rewrite Hdesc.
Qed.

Lemma rejection_reported_witness :
  (OpenAIService.createChatCompletion sample_Number_toString
     (answering (Abrupt (TypeError "")))
     [ {| role := user; content := "Hi" |} ] no_options
     (OpenAIService.setApiKey "sk-1" freshState).2).1 = Normal VNull
  /\ description
       <$> last (toasts
             (OpenAIService.createChatCompletion sample_Number_toString
                (answering (Abrupt (TypeError "")))
                [ {| role := user; content := "Hi" |} ] no_options
                (OpenAIService.setApiKey "sk-1" freshState).2).2)
     = Some "Something went wrong".
Proof.
  destruct (proj1 (rejection_reported sample_Number_toString
              (answering (Abrupt (TypeError "")))
              [ {| role := user; content := "Hi" |} ] no_options
              (OpenAIService.setApiKey "sk-1" freshState).2 "sk-1" []
              (TypeError "") ltac:(discriminate))
            ltac:(vm_compute; reflexivity) ltac:(by left))
    as (-> & -> & _).
  by rewrite last_snoc.
Defined.

(** Provider-A has no check of its own for an empty answer: on a 2xx
    response whose body has no [choices] or an empty list of them, the read
    of [choices[0].message] throws, and the call returns [null] with a
    [TypeError] in the toast and on the console. *)
Theorem openai_without_choices
    (Number_toString : float -> string) (network : Request -> Completion Response)
    (messages : list ChatMessage) (options : Options) (s : State) (k : string)
    (response : Response) (props : list (string * value)) :
  (OpenAIService.getApiKey s).1 = Normal (Some k) ->
  k <> "" ->
  network (OpenAIService.request (Some k) messages options) = Normal response ->
  ok response = true ->
  json response = Normal (VObject props) ->
  own_property "choices" props = None
  \/ own_property "choices" props = Some (VArray []) ->
  let out := OpenAIService.createChatCompletion Number_toString network
               messages options s in
  out.1 = Normal VNull
  /\ exists e : JsError,
       error_name e = "TypeError"
       /\ message e <> ""
       /\ toasts out.2
          = toasts s ++ [ {| title := "AI Request Failed"; description := message e;
                             variant := Some "destructive" |} ]
       /\ console out.2 = console s ++ [("OpenAI API Error:", e)].
Proof.
  intros Hget Hk Hnet Hok Hjson Hchoices. cbv zeta.
  assert (Hout : exists e, error_name e = "TypeError" /\ message e <> ""
            /\ failure_description e = message e
            /\ openai_outcome Number_toString
                 (network (OpenAIService.request (Some k) messages options))
               = Abrupt e).
  { rewrite Hnet. unfold openai_outcome, OpenAIService.first_choice_message.
    js_unfold. rewrite Hok, Hjson. simpl.
    destruct Hchoices as [-> | ->]; simpl; eexists; (split; [|split; [|split]]);
      try reflexivity; done. }
  destruct Hout as (e & Hname & Hmsg & Hdesc & Hout).
  destruct (openai_failure Number_toString network messages options s k Hk
              e Hget Hout) as (H1 & H2 & H3 & _).
  split; [done|]. exists e. rewrite H2, H3.
  unfold OpenAIService.failedToast. by rewrite Hdesc.
Qed.

Lemma openai_without_choices_witness :
  (OpenAIService.createChatCompletion sample_Number_toString
     (answering (Normal {| ok := true;
                           json := Normal (VObject [("choices", VArray [])]) |}))
     [ {| role := user; content := "Hi" |} ] no_options
     (OpenAIService.setApiKey "sk-1" freshState).2).1 = Normal VNull.
Proof.
  apply (openai_without_choices sample_Number_toString
           (answering (Normal {| ok := true;
                                 json := Normal (VObject [("choices", VArray [])]) |}))
           [ {| role := user; content := "Hi" |} ] no_options
           (OpenAIService.setApiKey "sk-1" freshState).2 "sk-1"
           {| ok := true; json := Normal (VObject [("choices", VArray [])]) |}
           [("choices", VArray [])]).
  - vm_compute. reflexivity.
  - discriminate.
  - reflexivity.
  - reflexivity.
  - reflexivity.
  - right. reflexivity.
Defined.

(** No failure of Provider-B is silent: a call either returns an assistant
    message and shows and logs nothing, or returns [null] and shows exactly
    one destructive toast. On Provider-A every toast comes with [null]. *)
Theorem failure_is_shown
    (Number_toString : float -> string) (network : Request -> Completion Response)
    (messages : list ChatMessage) (options : Options) (s : State) :
  (let out := GeminiService.createChatCompletion Number_toString network
                messages options s in
   (exists txt : value,
      out.1 = Normal (VObject [("role", VString "assistant"); ("content", txt)])
      /\ toasts out.2 = toasts s /\ console out.2 = console s)
   \/ (out.1 = Normal VNull
       /\ exists t : Toast,
            toasts out.2 = toasts s ++ [t] /\ variant t = Some "destructive"))
  /\
  (let out := OpenAIService.createChatCompletion Number_toString network
                messages options s in
   (toasts out.2 = toasts s /\ console out.2 = console s)
   \/ (out.1 = Normal VNull
       /\ exists t : Toast,
            toasts out.2 = toasts s ++ [t] /\ variant t = Some "destructive")).
Proof.
  split; cbv zeta.
  - destruct (getApiKey_total geminiService GeminiService.storageKey s)
      as (r & s1 & E & _).
    fold GeminiService.getApiKey in E.
    assert (Hget : (GeminiService.getApiKey s).1 = Normal r) by (by rewrite E).
    destruct (truthy_string r) eqn:Hr.
    + destruct (gemini_run Number_toString network messages options s _ Hget Hr)
        as (gm & _ & _ & _ & H).
      destruct (gemini_outcome _ _) as [v|e] eqn:Eo.
      * apply gemini_outcome_Normal in Eo as (? & ? & txt & _ & _ & _ & _ & _ & ->).
        left. exists txt. done.
      * right. destruct H as (? & ? & ?). split; [done|]. eauto.
    + right. rewrite (gemini_without_key _ _ _ _ _ r Hget Hr). cbn.
      split; [done|]. eauto.
  - destruct (getApiKey_total openaiService OpenAIService.storageKey s)
      as (r & s1 & E & _).
    fold OpenAIService.getApiKey in E.
    assert (Hget : (OpenAIService.getApiKey s).1 = Normal r) by (by rewrite E).
    destruct (truthy_string r) eqn:Hr.
    + destruct (openai_run Number_toString network messages options s _ Hget Hr)
        as (_ & _ & H).
      destruct (openai_outcome _ _) as [v|e].
      * left. by destruct H as (_ & ? & ?).
      * right. destruct H as (? & ? & ?). split; [done|]. eauto.
    + right. rewrite (openai_without_key _ _ _ _ _ r Hget Hr). cbn.
      split; [done|]. eauto.
Qed.

(** ** The translation, on every input *)



Lemma contents_plain (messages : list ChatMessage) :
  List.find (fun m => bool_decide (role m = system)) messages = None
  \/ (forall msg : ChatMessage,
        head (filter (fun m => role m <> system) messages) = Some msg ->
        role msg = assistant) ->
  GeminiService.contents messages
  = Normal (GeminiService.convertToGeminiMessages messages).
Proof.
  unfold GeminiService.contents, GeminiService.prefixSystemMessage.
  intros [-> | Hhead]; [done|].
  destruct (List.find _ messages) as [sys|]; [|done].
  unfold GeminiService.convertToGeminiMessages.
  destruct (filter _ messages) as [|first others]; [done|].
  rewrite fmap_cons. cbn [gemini_role].
  rewrite (Hhead first eq_refl). by cbn.
Qed.



(** The system message reaches Provider-B only through a leading user
    turn: when the first message that is not a system message is an
    assistant message, or there is none, every turn carries its own message's
    content and nothing else, so the system message's content is sent
    nowhere. *)
Theorem system_message_dropped (messages : list ChatMessage) :
  (forall msg : ChatMessage,
     head (filter (fun m => role m <> system) messages) = Some msg ->
     role msg = assistant) ->
  GeminiService.contents messages
  = Normal (GeminiService.convertToGeminiMessages messages)
  /\ forall turn : GeminiMessage,
       turn ∈ GeminiService.convertToGeminiMessages messages ->
       exists msg : ChatMessage,
         msg ∈ messages /\ role msg <> system
         /\ parts turn = [ {| text := content msg |} ].
Proof.
  intros Hhead. split.
  - apply contents_plain. by right.
  - intros turn Hin.
    destruct (convert_parts messages turn Hin) as (msg & ? & ? & ? & _). eauto.
Qed.

Lemma system_message_dropped_witness :
  GeminiService.contents
    [ {| role := system; content := "Be terse." |};
      {| role := assistant; content := "Hello" |};
      {| role := user; content := "Hi" |} ]
  = Normal [ {| gemini_role := gemini_model; parts := [ {| text := "Hello" |} ] |};
             {| gemini_role := gemini_user; parts := [ {| text := "Hi" |} ] |} ].
Proof.
  refine (proj1 (system_message_dropped
                   [ {| role := system; content := "Be terse." |};
                     {| role := assistant; content := "Hello" |};
                     {| role := user; content := "Hi" |} ] _)).
  intros msg. vm_compute. intros [= <-]. reflexivity.
Defined.

(** ** The requests *)

Lemma filter_all_system (messages : list ChatMessage) :
  Forall (fun msg => role msg = system) messages ->
  filter (fun msg => role msg <> system) messages = [].
Proof.
  induction 1 as [|msg l Hmsg _ IH]; [done|].
  rewrite filter_cons_False by (by intros ?). done.
Qed.

(** Nothing checks the message list: with a key, a list that is empty or
    holds system messages only still sends a request to Provider-B, with
    no turn in it. *)
Theorem empty_contents_sent
    (Number_toString : float -> string) (network : Request -> Completion Response)
    (messages : list ChatMessage) (options : Options) (s : State) (k : string) :
  (GeminiService.getApiKey s).1 = Normal (Some k) ->
  k <> "" ->
  Forall (fun msg => role msg = system) messages ->
  exists rq : Request,
    requests (GeminiService.createChatCompletion Number_toString network
                messages options s).2 = requests s ++ [rq]
    /\ field "contents" (body rq) = Some (VArray []).
Proof.
  intros Hget Hk Hsys.
  assert (Ht : truthy_string (Some k) = true) by (apply truthy_string_Some; eauto).
  destruct (gemini_run Number_toString network messages options s _ Hget Ht)
    as (gm & Hcont & Hrq & _).
  rewrite contents_plain in Hcont.
  - unfold GeminiService.convertToGeminiMessages in Hcont.
    rewrite filter_all_system in Hcont by done. injection Hcont as <-.
    eexists. split; [exact Hrq|]. reflexivity.
  - right. rewrite filter_all_system by done. done.
Qed.

Lemma empty_contents_sent_witness :
  exists rq : Request,
    requests (GeminiService.createChatCompletion sample_Number_toString
                (answering (Abrupt (TypeError "Failed to fetch")))
                [] no_options (GeminiService.setApiKey "AIza" freshState).2).2 = [rq]
    /\ field "contents" (body rq) = Some (VArray []).
Proof.
  apply (empty_contents_sent sample_Number_toString
           (answering (Abrupt (TypeError "Failed to fetch")))
           [] no_options (GeminiService.setApiKey "AIza" freshState).2 "AIza").
  - vm_compute. reflexivity.
  - discriminate.
  - constructor.
Defined.

(** Provider-A gets the conversation as it is: one POST to
    [/chat/completions] with the key in the [Authorization] header and
    nowhere else in the URL, and in the body every message, system messages
    included, in order, with its role and content, and [max_tokens] as
    given. *)
Theorem openai_request_shape
    (Number_toString : float -> string) (network : Request -> Completion Response)
    (messages : list ChatMessage) (options : Options) (s : State) (k : string) :
  (OpenAIService.getApiKey s).1 = Normal (Some k) ->
  k <> "" ->
  exists (rq : Request) (sentMessages : list value),
    requests (OpenAIService.createChatCompletion Number_toString network
                messages options s).2 = requests s ++ [rq]
    /\ url rq = "https://api.openai.com/v1/chat/completions"
    /\ method rq = "POST"
    /\ headers rq = [("Content-Type", "application/json");
                     ("Authorization", "Bearer " +:+ k)]
    /\ field "messages" (body rq) = Some (VArray sentMessages)
    /\ length sentMessages = length messages
    /\ (forall (i : nat) (msg : ChatMessage),
          messages !! i = Some msg ->
          exists props : list (string * value),
            sentMessages !! i = Some (VObject props)
            /\ own_property "content" props = Some (VString (content msg))
            /\ (role msg = system -> own_property "role" props = Some (VString "system"))
            /\ (role msg = user -> own_property "role" props = Some (VString "user"))
            /\ (role msg = assistant ->
                own_property "role" props = Some (VString "assistant")))
    /\ (forall n : float, max_tokens options = Some n ->
          field "max_tokens" (body rq) = Some (VNumber n))
    /\ (max_tokens options = None -> field "max_tokens" (body rq) = Some VUndefined).
Proof.
  intros Hget Hk.
  assert (Ht : truthy_string (Some k) = true) by (apply truthy_string_Some; eauto).
  destruct (openai_run Number_toString network messages options s _ Hget Ht)
    as (Hrq & _).
  eexists _, _. split; [exact Hrq|]. simpl.
  split; [done|]. split; [done|]. split; [done|]. split; [done|].
  split; [apply length_fmap|]. split.
  - intros i msg Hi. rewrite list_lookup_fmap, Hi. simpl.
    eexists. split; [done|]. simpl. split; [done|].
    repeat split; by intros ->.
  - split; [by intros n ->|by intros ->].
Qed.

Lemma openai_request_shape_witness :
  exists rq : Request,
    requests (OpenAIService.createChatCompletion sample_Number_toString
                (answering (Abrupt (TypeError "Failed to fetch")))
                [ {| role := system; content := "Be terse." |};
                  {| role := user; content := "Hi" |} ]
                no_options (OpenAIService.setApiKey "sk-1" freshState).2).2 = [rq]
    /\ headers rq = [("Content-Type", "application/json");
                     ("Authorization", "Bearer sk-1")].
Proof.
  destruct (openai_request_shape sample_Number_toString
              (answering (Abrupt (TypeError "Failed to fetch")))
              [ {| role := system; content := "Be terse." |};
                {| role := user; content := "Hi" |} ]
              no_options (OpenAIService.setApiKey "sk-1" freshState).2 "sk-1")
    as (rq & sentMessages & Hrq & _ & _ & Hh & _).
  - vm_compute. reflexivity.
  - discriminate.
  - exists rq. split; [exact Hrq | exact Hh].
Defined.



(** ** The hook *)

Ltac hook_unfold :=
  unfold useGemini.generateResponse, hook_try_catch, service, setLoading,
    mbind, mret, Hook_bind, Hook_ret in *.

Lemma generateResponse_run
    (Number_toString : float -> string) (network : Request -> Completion Response)
    (messages : list ChatMessage) (options : Options) (h : HookState) :
  useGemini.generateResponse Number_toString network messages options h
  = ((GeminiService.createChatCompletion Number_toString network messages options
        (world h)).1,
     {| loading := false;
        world := (GeminiService.createChatCompletion Number_toString network
                    messages options (world h)).2 |}).
Proof.
  destruct (gemini_returns Number_toString network messages options (world h))
    as (v & s' & E & _).
  hook_unfold. cbn [world loading]. rewrite E. reflexivity.
Qed.

Lemma hook_setApiKey_run (X : string) (s : State) :
  useGemini.setApiKey X s
  = (Normal true,
     with_toasts (toasts s ++ [useGemini.savedToast]) (GeminiService.setApiKey X s).2).
Proof.
  reflexivity.
Qed.

Lemma hook_clearApiKey_run (s : State) :
  useGemini.clearApiKey s
  = (Normal tt,
     with_toasts (toasts s ++ [useGemini.removedToast]) (GeminiService.clearApiKey s).2).
Proof.
  reflexivity.
Qed.

Lemma getApiKey_with_toasts (ts : list Toast) (s : State) :
  GeminiService.getApiKey (with_toasts ts s)
  = ((GeminiService.getApiKey s).1, with_toasts ts (GeminiService.getApiKey s).2).
Proof.
  unfold GeminiService.getApiKey.
  assert (Ha : apiKey geminiService (with_toasts ts s) = apiKey geminiService s)
    by done.
  assert (Hl : localStorage (with_toasts ts s) = localStorage s) by done.
  destruct (truthy_string (apiKey geminiService s)) eqn:Hc.
  - rewrite !getApiKey_cached by (by rewrite ?Ha). by rewrite Ha.
  - destruct (truthy_string (localStorage s !! GeminiService.storageKey)) eqn:Hs.
    + rewrite !getApiKey_read_through by (by rewrite ?Ha, ?Hl). by rewrite Hl.
    + rewrite !getApiKey_unset by (by rewrite ?Ha, ?Hl). by rewrite Ha.
Qed.

(** [generateResponse] hands on what [createChatCompletion] returns and
    does to the world, and whatever the network does it ends with [loading]
    false; its own [catch] is never entered. *)
Theorem generateResponse_settles
    (Number_toString : float -> string) (network : Request -> Completion Response)
    (messages : list ChatMessage) (options : Options) (h : HookState) :
  let out := useGemini.generateResponse Number_toString network messages options h in
  let call := GeminiService.createChatCompletion Number_toString network
                messages options (world h) in
  (exists v : value, out.1 = Normal v)
  /\ out.1 = call.1
  /\ world out.2 = call.2
  /\ loading out.2 = false.
Proof.
  cbv zeta. rewrite generateResponse_run. cbn [fst snd world loading].
  split; [|done].
  destruct (gemini_returns Number_toString network messages options (world h))
    as (v & s' & -> & _). eauto.
Qed.


Lemma hook_saved_getApiKey (X : string) (s : State) :
  GeminiService.getApiKey (useGemini.setApiKey X s).2
  = (Normal (Some X), (useGemini.setApiKey X s).2).
Proof.
  rewrite hook_setApiKey_run. cbn [snd]. rewrite getApiKey_with_toasts.
  unfold GeminiService.getApiKey, GeminiService.setApiKey.
  by rewrite set_then_get.
Qed.

Lemma hook_cleared_getApiKey (s : State) :
  GeminiService.getApiKey (useGemini.clearApiKey s).2
  = (Normal None, (useGemini.clearApiKey s).2).
Proof.
  rewrite hook_clearApiKey_run. cbn [snd]. rewrite getApiKey_with_toasts.
  unfold GeminiService.getApiKey, GeminiService.clearApiKey.
  by rewrite clear_then_get.
Qed.

(** Saving the empty string through the hook shows "API Key Saved", yet
    the next [generateResponse] sends nothing, shows "API Key Missing" and
    returns [null]. *)
Theorem saved_empty_key_is_missing
    (Number_toString : float -> string) (network : Request -> Completion Response)
    (messages : list ChatMessage) (options : Options) (s : State) (l : bool) :
  let s1 := (useGemini.setApiKey "" s).2 in
  let out := useGemini.generateResponse Number_toString network messages options
               {| loading := l; world := s1 |} in
  out.1 = Normal VNull
  /\ toasts (world out.2)
     = toasts s ++ [useGemini.savedToast; GeminiService.missingToast]
  /\ requests (world out.2) = requests s
  /\ loading out.2 = false.
Proof.
  cbv zeta. rewrite generateResponse_run. cbn [fst snd world loading].
  rewrite (gemini_without_key _ _ _ _ _ (Some ""));
    [| by rewrite hook_saved_getApiKey | done].
  cbn [fst snd]. rewrite hook_setApiKey_run. cbn.
  by rewrite <- app_assoc.
Qed.

(** After the hook's [clearApiKey], the stored key is gone, the toast
    "API Key Removed" was shown, and [generateResponse] sends nothing, shows
    "API Key Missing" and returns [null], whatever key was there before. *)
Theorem cleared_then_generate
    (Number_toString : float -> string) (network : Request -> Completion Response)
    (messages : list ChatMessage) (options : Options) (s : State) (l : bool) :
  let s1 := (useGemini.clearApiKey s).2 in
  let out := useGemini.generateResponse Number_toString network messages options
               {| loading := l; world := s1 |} in
  localStorage s1 !! "gemini_api_key" = None
  /\ out.1 = Normal VNull
  /\ toasts (world out.2)
     = toasts s ++ [useGemini.removedToast; GeminiService.missingToast]
  /\ requests (world out.2) = requests s
  /\ loading out.2 = false.
Proof.
  cbv zeta. rewrite generateResponse_run. cbn [fst snd world loading].
  rewrite (gemini_without_key _ _ _ _ _ None);
    [| by rewrite hook_cleared_getApiKey | done].
  cbn [fst snd]. rewrite hook_clearApiKey_run. split.
  { unfold GeminiService.clearApiKey. rewrite clearApiKey_run.
    cbn [snd localStorage with_toasts with_localStorage].
    apply lookup_delete_eq. }
  cbn. by rewrite <- app_assoc.
Qed.

(** The key saved through the hook is the key sent: after [setApiKey(X)]
    with [X] not empty, whatever was cached or stored before,
    [generateResponse] sends exactly one request, and its URL carries [X] as
    the [key] parameter. *)
Theorem saved_key_is_sent
    (Number_toString : float -> string) (network : Request -> Completion Response)
    (messages : list ChatMessage) (options : Options) (s : State) (l : bool)
    (X : string) :
  X <> "" ->
  let s1 := (useGemini.setApiKey X s).2 in
  let out := useGemini.generateResponse Number_toString network messages options
               {| loading := l; world := s1 |} in
  exists (rq : Request) (modelName : string),
    requests (world out.2) = requests s ++ [rq]
    /\ url rq = "https://generativelanguage.googleapis.com/v1beta/models/"
                +:+ modelName +:+ ":generateContent?key=" +:+ X
    /\ loading out.2 = false.
Proof.
  intros HX. cbv zeta. rewrite generateResponse_run. cbn [fst snd world loading].
  assert (Ht : truthy_string (Some X) = true) by (apply truthy_string_Some; eauto).
  assert (Hget : (GeminiService.getApiKey (useGemini.setApiKey X s).2).1
                 = Normal (Some X)) by (by rewrite hook_saved_getApiKey).
  destruct (gemini_run Number_toString network messages options _ _ Hget Ht)
    as (turns & _ & Hrq & _).
  rewrite Hrq.
  exists (GeminiService.request (Some X) turns options),
         (or_string (model options) GeminiService.defaultModel).
  split; [|split; [reflexivity|done]].
  rewrite hook_setApiKey_run. reflexivity.
Qed.

Lemma saved_key_is_sent_witness :
  "AIza" <> ""
  /\ exists rq : Request,
       requests (world (useGemini.generateResponse sample_Number_toString
                          (answering (Abrupt (TypeError "Failed to fetch")))
                          [ {| role := user; content := "Hi" |} ] no_options
                          {| loading := false;
                             world := (useGemini.setApiKey "AIza" freshState).2 |}).2)
       = [rq]
       /\ url rq = "https://generativelanguage.googleapis.com/v1beta/models/"
                   +:+ "gemini-pro" +:+ ":generateContent?key=" +:+ "AIza".
Proof.
  split; [discriminate|].
  destruct (saved_key_is_sent sample_Number_toString
              (answering (Abrupt (TypeError "Failed to fetch")))
              [ {| role := user; content := "Hi" |} ] no_options
              freshState false "AIza" ltac:(discriminate))
    as (rq & modelName & Hrq & Hurl & _).
  exists rq. split; [exact Hrq|].
  vm_compute in Hrq. injection Hrq as <-. reflexivity.
Defined.

(** ** The dialog *)

Section DialogFacts.
Variable trim : string -> string.
Variable setOpenAIApiKey : string -> JS bool.
Variable getOpenAIApiKey : JS (option string).
Variable onOpenChange : bool -> JS unit.

Lemma handleSave_disabled (d : Dialog) (s : State) :
  APIProviderSelection.saveDisabled trim d = true ->
  APIProviderSelection.handleSave trim setOpenAIApiKey onOpenChange d s
  = onOpenChange false s.
Proof.
  unfold APIProviderSelection.saveDisabled, APIProviderSelection.handleSave.
  js_unfold. destruct (provider d); simpl;
    destruct (String.eqb (trim _) ""); simpl; done.
Qed.

Lemma handleSave_gemini (d : Dialog) (s : State) :
  provider d = gemini ->
  trim (geminiKey d) <> "" ->
  APIProviderSelection.handleSave trim setOpenAIApiKey onOpenChange d s
  = onOpenChange false (useGemini.setApiKey (trim (geminiKey d)) s).2.
Proof.
  intros Hp Hk. unfold APIProviderSelection.handleSave,
    APIProviderSelection.setGeminiApiKey. rewrite Hp.
  destruct (String.eqb_spec (trim (geminiKey d)) ""); [done|].
  cbn [bool_decide decide_rel andb negb]. unfold mbind, mret, JS_bind, JS_ret.
  rewrite hook_setApiKey_run. reflexivity.
Qed.
End DialogFacts.

(** The button "Save API Key" and [handleSave] agree: when the button is
    disabled (the chosen provider's field is empty after [trim()]),
    [handleSave] would store nothing and only close the dialog; when it is
    enabled, [handleSave] passes the trimmed, non-empty field of the chosen
    provider to that provider's [setApiKey] and then closes. For Gemini the
    world [onOpenChange(false)] starts from holds the trimmed key, with the
    toast "API Key Saved". *)
Theorem save_button_guard
    (trim : string -> string) (setOpenAIApiKey : string -> JS bool)
    (onOpenChange : bool -> JS unit) (d : Dialog) (s : State) :
  let handleSave := APIProviderSelection.handleSave trim setOpenAIApiKey onOpenChange in
  (APIProviderSelection.saveDisabled trim d = true ->
   handleSave d s = onOpenChange false s)
  /\
  (APIProviderSelection.saveDisabled trim d = false ->
   provider d = openai ->
   trim (openAIKey d) <> ""
   /\ handleSave d s
      = (setOpenAIApiKey (trim (openAIKey d)) ;; onOpenChange false) s)
  /\
  (APIProviderSelection.saveDisabled trim d = false ->
   provider d = gemini ->
   let mid := (useGemini.setApiKey (trim (geminiKey d)) s).2 in
   trim (geminiKey d) <> ""
   /\ handleSave d s = onOpenChange false mid
   /\ localStorage mid !! "gemini_api_key" = Some (trim (geminiKey d))
   /\ (GeminiService.getApiKey mid).1 = Normal (Some (trim (geminiKey d)))
   /\ toasts mid = toasts s ++ [useGemini.savedToast]).
Proof.
  cbv zeta. split; [apply handleSave_disabled|]. split.
  - intros Hd Hp. unfold APIProviderSelection.saveDisabled in Hd.
    rewrite Hp in Hd. simpl in Hd. rewrite orb_false_r in Hd.
    split; [by intros Heq; rewrite Heq in Hd|].
    unfold APIProviderSelection.handleSave. js_unfold. rewrite Hp. simpl.
    rewrite Hd. simpl. by destruct (setOpenAIApiKey _ s) as [[|] ?].
  - intros Hd Hp. unfold APIProviderSelection.saveDisabled in Hd.
    rewrite Hp in Hd. simpl in Hd.
    assert (Hk : trim (geminiKey d) <> "") by (by intros Heq; rewrite Heq in Hd).
    split; [done|]. split; [by apply handleSave_gemini|].
    rewrite hook_saved_getApiKey, hook_setApiKey_run. cbn [fst snd].
    split; [|done].
    apply (stored_after_set geminiService GeminiService.storageKey).
Qed.

Lemma save_button_guard_witness :
  let d := {| provider := gemini; openAIKey := ""; geminiKey := "AIza" |} in
  APIProviderSelection.saveDisabled sample_trim d = false
  /\ (GeminiService.getApiKey
        (APIProviderSelection.handleSave sample_trim OpenAIService.setApiKey
           (fun _ => mret tt) d freshState).2).1
     = Normal (Some "AIza").
Proof.
  cbv zeta. split; [reflexivity|].
  destruct (proj2 (proj2 (save_button_guard sample_trim OpenAIService.setApiKey
                            (fun _ => mret tt)
                            {| provider := gemini; openAIKey := "";
                               geminiKey := "AIza" |} freshState))
              eq_refl eq_refl) as (_ & -> & _ & Hget & _).
  exact Hget.
Defined.

Lemma getApiKey_same_key (s s' : State) :
  apiKey geminiService s' = apiKey geminiService s ->
  localStorage s' !! GeminiService.storageKey
  = localStorage s !! GeminiService.storageKey ->
  (GeminiService.getApiKey s').1 = (GeminiService.getApiKey s).1.
Proof.
  intros Ha Hl. unfold GeminiService.getApiKey.
  by rewrite !getApiKey_result, Ha, Hl.
Qed.

Lemma openai_keeps_gemini_key : keeps_gemini_key OpenAIService.getApiKey.
Proof.
  intros s.
  destruct (getApiKey_state openaiService OpenAIService.storageKey s) as (r & E).
  exists r, (with_apiKey openaiService r s). split; [exact E|]. done.
Qed.

(** When the dialog opens, the Gemini field takes the key [getApiKey()]
    resolves to, if that is a non-empty key, and otherwise keeps the text it
    had: a removed key does not empty the field. This holds whenever the
    OpenAI half of the effect returns and leaves the Gemini key alone. *)
Theorem initialize_gemini_field (getOpenAIApiKey : JS (option string))
    (d : Dialog) (s : State) :
  keeps_gemini_key getOpenAIApiKey ->
  exists (d' : Dialog) (s' : State),
    APIProviderSelection.initialize getOpenAIApiKey d s = (Normal d', s')
    /\ provider d' = provider d
    /\ (forall X : string,
          (GeminiService.getApiKey s).1 = Normal (Some X) -> X <> "" ->
          geminiKey d' = X)
    /\ ((GeminiService.getApiKey s).1 = Normal None
        \/ (GeminiService.getApiKey s).1 = Normal (Some "") ->
        geminiKey d' = geminiKey d).
Proof.
  intros Hkeeps. destruct (Hkeeps s) as (openAIApiKey & s1 & E & Ha & Hl).
  pose proof (getApiKey_same_key s s1 Ha Hl) as Hsame.
  destruct (getApiKey_total geminiService GeminiService.storageKey s1)
    as (r & s2 & E2 & _).
  fold GeminiService.getApiKey in E2. rewrite E2 in Hsame. cbn [fst] in Hsame.
  unfold APIProviderSelection.initialize, APIProviderSelection.getGeminiApiKey,
    useGemini.getApiKey. js_unfold. rewrite E, E2.
  eexists _, _. split; [reflexivity|].
  assert (Hd1 : forall d1 : Dialog,
            d1 = match openAIApiKey with
                 | Some key => if String.eqb key "" then d else setOpenAIKey key d
                 | None => d
                 end ->
            provider d1 = provider d /\ geminiKey d1 = geminiKey d).
  { intros d1 ->. destruct openAIApiKey as [key|]; [|done].
    by destruct (String.eqb key ""). }
  destruct (Hd1 _ eq_refl) as [Hp1 Hg1].
  split; [|split].
  - destruct r as [key|]; [|done]. by destruct (String.eqb key "").
  - intros X HX Hne. rewrite <- Hsame in HX. injection HX as ->.
    by destruct (String.eqb_spec X "").
  - intros [H | H]; rewrite <- Hsame in H; injection H as ->; done.
Qed.

Lemma initialize_gemini_field_witness :
  keeps_gemini_key OpenAIService.getApiKey
  /\ geminiKey
       <$> (match (APIProviderSelection.initialize OpenAIService.getApiKey
                     {| provider := openai; openAIKey := ""; geminiKey := "" |}
                     (useGemini.setApiKey "AIza" freshState).2).1 with
            | Normal d' => Some d'
            | Abrupt _ => None
            end)
     = Some "AIza".
Proof.
  split; [exact openai_keeps_gemini_key|].
  destruct (initialize_gemini_field OpenAIService.getApiKey
              {| provider := openai; openAIKey := ""; geminiKey := "" |}
              (useGemini.setApiKey "AIza" freshState).2 openai_keeps_gemini_key)
    as (d' & s' & -> & _ & Hkey & _).
  cbn [fst fmap option_fmap option_map]. f_equal.
  apply Hkey; [vm_compute; reflexivity | discriminate].
Defined.

(** ** The cache comes first *)

(** While an instance holds a non-empty key in its cache, [localStorage] is
    not consulted: whatever the store holds by then (nothing, or another
    key), [getApiKey()] returns the cached key and [createChatCompletion]
    sends it. Both services. *)
Theorem cached_key_shadows_store
    (Number_toString : float -> string) (network : Request -> Completion Response)
    (messages : list ChatMessage) (options : Options) (s : State) (X : string)
    (store : gmap string string) :
  X <> "" ->
  (apiKey openaiService s = Some X ->
   let s1 := with_localStorage store s in
   OpenAIService.getApiKey s1 = (Normal (Some X), s1)
   /\ exists rq : Request,
        requests (OpenAIService.createChatCompletion Number_toString network
                    messages options s1).2 = requests s ++ [rq]
        /\ headers rq = [("Content-Type", "application/json");
                         ("Authorization", "Bearer " +:+ X)])
  /\
  (apiKey geminiService s = Some X ->
   let s1 := with_localStorage store s in
   GeminiService.getApiKey s1 = (Normal (Some X), s1)
   /\ exists (rq : Request) (modelName : string),
        requests (GeminiService.createChatCompletion Number_toString network
                    messages options s1).2 = requests s ++ [rq]
        /\ url rq = "https://generativelanguage.googleapis.com/v1beta/models/"
                    +:+ modelName +:+ ":generateContent?key=" +:+ X).
Proof.
  intros HX.
  assert (Ht : truthy_string (Some X) = true) by (apply truthy_string_Some; eauto).
  split; intros Hc; cbv zeta.
  - assert (Hget : OpenAIService.getApiKey (with_localStorage store s)
                   = (Normal (Some X), with_localStorage store s)).
    { unfold OpenAIService.getApiKey. rewrite getApiKey_cached.
      - by rewrite apiKey_with_localStorage, Hc.
      - by rewrite apiKey_with_localStorage, Hc. }
    split; [done|].
    assert (Hget1 : (OpenAIService.getApiKey (with_localStorage store s)).1
                    = Normal (Some X)) by (by rewrite Hget).
    destruct (openai_run Number_toString network messages options _ _ Hget1 Ht)
      as (Hrq & _).
    eexists. split; [exact Hrq|]. reflexivity.
  - assert (Hget : GeminiService.getApiKey (with_localStorage store s)
                   = (Normal (Some X), with_localStorage store s)).
    { unfold GeminiService.getApiKey. rewrite getApiKey_cached.
      - by rewrite apiKey_with_localStorage, Hc.
      - by rewrite apiKey_with_localStorage, Hc. }
    split; [done|].
    assert (Hget1 : (GeminiService.getApiKey (with_localStorage store s)).1
                    = Normal (Some X)) by (by rewrite Hget).
    destruct (gemini_run Number_toString network messages options _ _ Hget1 Ht)
      as (turns & _ & Hrq & _).
    exists (GeminiService.request (Some X) turns options),
           (or_string (model options) GeminiService.defaultModel).
    split; [exact Hrq|]. reflexivity.
Qed.

Lemma cached_key_shadows_store_witness :
  "AIza" <> ""
  /\ (GeminiService.getApiKey
        (with_localStorage ∅ (GeminiService.setApiKey "AIza" freshState).2)).1
     = Normal (Some "AIza").
Proof.
  split; [discriminate|].
  destruct (proj2 (cached_key_shadows_store sample_Number_toString
                     (answering (Abrupt (TypeError "Failed to fetch")))
                     [] no_options (GeminiService.setApiKey "AIza" freshState).2
                     "AIza" ∅ ltac:(discriminate)) eq_refl) as [-> _].
  reflexivity.
Defined.
